(** * Session establishment in the SkeletonProject sample

    A shallow embedding of the two protocol pieces of the sample project:

    - [OfflineMainMenuWidget.cpp]: the menu widget that logs in, asks the
      backend for a player session and opens the returned address;
    - [GameModeWithGameLift.cpp]: the game mode that registers the server
      process with the GameLift agent.

    The engine and the GameLift server SDK are not part of the project.  The
    JSON library is kept behind an interface ([Json.JsonLibrary]) with one
    reference instance; the HTTP module and the GameLift agent are the
    environment of an event-driven model. *)

From Stdlib Require Import String Ascii List Bool ZArith Arith Lia.
Import ListNotations.
Local Open Scope list_scope.
Local Open Scope string_scope.
Set Warnings "-register-all".

(* ===================================================================== *)
(** * The JSON library used by the widget *)
(* ===================================================================== *)

Module Json.

(** What the widget uses of the engine's [Json] module: [FJsonObject] with
    [SetStringField], [GetObjectField] and [GetStringField], and
    [FJsonSerializer] with [Serialize] and [Deserialize].  Both getters
    return a value in every case (the engine logs and hands back an empty
    object or an empty string when the field is missing), so they are total
    functions here. *)
Class JsonLibrary : Type := {
  FJsonObject : Type;
  (** [new FJsonObject()] *)
  NewObject : FJsonObject;
  SetStringField : FJsonObject -> string -> string -> FJsonObject;
  GetObjectField : FJsonObject -> string -> FJsonObject;
  GetStringField : FJsonObject -> string -> string;
  (** [FJsonSerializer::Serialize(Object, Writer)], as the text written *)
  Serialize : FJsonObject -> string;
  (** [FJsonSerializer::Deserialize(Reader, Object)]: [None] is [false] *)
  Deserialize : string -> option FJsonObject
}.

(** ** Reference instance *)

(** JSON values.  A number keeps the digits it was written with. *)
Inductive FJsonValue : Type :=
| FJsonValueNull
| FJsonValueString (Value : string)
| FJsonValueNumber (Lexeme : string)
| FJsonValueBoolean (Value : bool)
| FJsonValueArray (Values : list FJsonValue)
| FJsonValueObject (Values : list (string * FJsonValue)).

(** An object is its field table, in insertion order. *)
Definition Fields : Type := list (string * FJsonValue).

(** A character of a string of this model is one character of the engine's
    string, with a code from 1 to 255.  The keys of the table are engine
    strings, and the engine compares strings without regard to the case of
    the letters A to Z. *)
Definition to_lower (c : ascii) : ascii :=
  let n := nat_of_ascii c in
  if Nat.leb 65 n && Nat.leb n 90 then ascii_of_nat (n + 32) else c.

Fixpoint lower (s : string) : string :=
  match s with
  | EmptyString => EmptyString
  | String c r => String (to_lower c) (lower r)
  end.

Definition same_key (a b : string) : bool := String.eqb (lower a) (lower b).

Fixpoint Find (Values : Fields) (FieldName : string) : option FJsonValue :=
  match Values with
  | [] => None
  | (k, v) :: rest => if same_key k FieldName then Some v else Find rest FieldName
  end.

(** [SetField]: an entry with the same key is replaced where it stands,
    key and value; a new key is added at the end. *)
Fixpoint SetField (Values : Fields) (FieldName : string) (v : FJsonValue) : Fields :=
  match Values with
  | [] => [(FieldName, v)]
  | (k, old) :: rest =>
      if same_key k FieldName then (FieldName, v) :: rest
      else (k, old) :: SetField rest FieldName v
  end.

(** [GetObjectField]: the field when it is an object, else the empty
    object. *)
Definition GetObjectField_ref (o : Fields) (FieldName : string) : Fields :=
  match Find o FieldName with
  | Some (FJsonValueObject Values) => Values
  | _ => []
  end.

(** [GetStringField]: the field read as a string, else the empty string.
    Numbers and booleans convert; for a number the engine prints the parsed
    double, which for a plain integer is the digits read. *)
Definition GetStringField_ref (o : Fields) (FieldName : string) : string :=
  match Find o FieldName with
  | Some (FJsonValueString s) => s
  | Some (FJsonValueNumber lexeme) => lexeme
  | Some (FJsonValueBoolean b) => if b then "true" else "false"
  | _ => ""
  end.

(** *** Reader *)

Definition is_space (c : ascii) : bool :=
  match c with
  | " "%char | "009"%char | "010"%char | "013"%char => true
  | _ => false
  end.

Definition is_digit (c : ascii) : bool :=
  let n := nat_of_ascii c in Nat.leb 48 n && Nat.leb n 57.

Fixpoint skip_ws (s : list ascii) : list ascii :=
  match s with
  | c :: r => if is_space c then skip_ws r else s
  | [] => []
  end.

Definition hex_digit (c : ascii) : option nat :=
  let n := nat_of_ascii c in
  if Nat.leb 48 n && Nat.leb n 57 then Some (n - 48)
  else if Nat.leb 65 n && Nat.leb n 70 then Some (n - 55)
  else if Nat.leb 97 n && Nat.leb n 102 then Some (n - 87)
  else None.

(** The character a hexadecimal escape of four digits stands for.  The
    strings of this model hold the codes 1 to 255 only: an escape for
    another code is not read. *)
Definition hex_escape (a b c d : ascii) : option ascii :=
  match hex_digit a, hex_digit b, hex_digit c, hex_digit d with
  | Some x3, Some x2, Some x1, Some x0 =>
      let n := ((x3 * 16 + x2) * 16 + x1) * 16 + x0 in
      if Nat.leb 1 n && Nat.leb n 255 then Some (ascii_of_nat n) else None
  | _, _, _, _ => None
  end.

(** The characters of a string literal after its opening quote, up to the
    closing quote, with the escapes decoded. *)
Fixpoint read_string (s : list ascii) (acc : list ascii)
  : option (string * list ascii) :=
  match s with
  | [] => None
  | "034"%char :: r => Some (string_of_list_ascii (rev acc), r)
  | "\"%char :: e :: r =>
      match e with
      | "034"%char => read_string r ("034"%char :: acc)
      | "\"%char => read_string r ("\"%char :: acc)
      | "/"%char => read_string r ("/"%char :: acc)
      | "n"%char => read_string r ("010"%char :: acc)
      | "r"%char => read_string r ("013"%char :: acc)
      | "t"%char => read_string r ("009"%char :: acc)
      | "b"%char => read_string r ("008"%char :: acc)
      | "f"%char => read_string r ("012"%char :: acc)
      | "u"%char =>
          match r with
          | a :: b :: c :: d :: r' =>
              match hex_escape a b c d with
              | Some x => read_string r' (x :: acc)
              | None => None
              end
          | _ => None
          end
      | _ => None
      end
  | c :: r => read_string r (c :: acc)
  end.

Fixpoint take_digits (s : list ascii) (acc : list ascii)
  : list ascii * list ascii :=
  match s with
  | c :: r => if is_digit c then take_digits r (c :: acc) else (acc, s)
  | [] => (acc, [])
  end.

(** A number: optional minus, then a zero or digits that do not start with
    a zero, optional fraction, optional exponent.  The lexeme is returned as
    read. *)
Definition read_number (s : list ascii) : option (string * list ascii) :=
  let '(sign, s1) :=
    match s with
    | "-"%char :: r => (["-"%char], r)
    | _ => ([], s)
    end in
  match
    match s1 with
    | "0"%char :: r => ("0"%char :: sign, r)
    | _ => take_digits s1 sign
    end
  with
  | (acc1, s2) =>
      if Nat.eqb (List.length acc1) (List.length sign) then None else
      let '(acc2, s3) :=
        match s2 with
        | "."%char :: r =>
            let '(a, r') := take_digits r ("."%char :: acc1) in
            if Nat.eqb (List.length a) (S (List.length acc1)) then (acc1, s2) else (a, r')
        | _ => (acc1, s2)
        end in
      let '(acc3, s4) :=
        match s3 with
        | e :: r =>
            if (Ascii.eqb e "e" || Ascii.eqb e "E")%bool then
              let '(sg, r1) :=
                match r with
                | "+"%char :: r1 => ("+"%char :: e :: acc2, r1)
                | "-"%char :: r1 => ("-"%char :: e :: acc2, r1)
                | _ => (e :: acc2, r)
                end in
              let '(a, r') := take_digits r1 sg in
              if Nat.eqb (List.length a) (List.length sg) then (acc2, s3) else (a, r')
            else (acc2, s3)
        | [] => (acc2, s3)
        end in
      Some (string_of_list_ascii (rev acc3), s4)
  end.

Fixpoint strip_prefix (p s : list ascii) : option (list ascii) :=
  match p, s with
  | [], _ => Some s
  | a :: p', b :: s' => if Ascii.eqb a b then strip_prefix p' s' else None
  | _ :: _, [] => None
  end.

(** Recursive descent, with [fuel] bounding the nesting and the number of
    members; [Deserialize_ref] gives it the length of the text. *)
Fixpoint read_value (fuel : nat) (s : list ascii) {struct fuel}
  : option (FJsonValue * list ascii) :=
  match fuel with
  | O => None
  | S fuel' =>
      match skip_ws s with
      | "{"%char :: r =>
          match skip_ws r with
          | "}"%char :: r' => Some (FJsonValueObject [], r')
          | _ =>
              match read_members fuel' r [] with
              | Some (fs, r') => Some (FJsonValueObject fs, r')
              | None => None
              end
          end
      | "["%char :: r =>
          match skip_ws r with
          | "]"%char :: r' => Some (FJsonValueArray [], r')
          | _ =>
              match read_elements fuel' r [] with
              | Some (vs, r') => Some (FJsonValueArray vs, r')
              | None => None
              end
          end
      | "034"%char :: r =>
          match read_string r [] with
          | Some (str, r') => Some (FJsonValueString str, r')
          | None => None
          end
      | c :: r =>
          match strip_prefix (list_ascii_of_string "true") (c :: r) with
          | Some r' => Some (FJsonValueBoolean true, r')
          | None =>
          match strip_prefix (list_ascii_of_string "false") (c :: r) with
          | Some r' => Some (FJsonValueBoolean false, r')
          | None =>
          match strip_prefix (list_ascii_of_string "null") (c :: r) with
          | Some r' => Some (FJsonValueNull, r')
          | None =>
          match read_number (c :: r) with
          | Some (lexeme, r') => Some (FJsonValueNumber lexeme, r')
          | None => None
          end end end end
      | [] => None
      end
  end

with read_members (fuel : nat) (s : list ascii) (acc : Fields) {struct fuel}
  : option (Fields * list ascii) :=
  match fuel with
  | O => None
  | S fuel' =>
      match skip_ws s with
      | "034"%char :: r =>
          match read_string r [] with
          | Some (key, r1) =>
              match skip_ws r1 with
              | ":"%char :: r2 =>
                  match read_value fuel' r2 with
                  | Some (v, r3) =>
                      let acc' := SetField acc key v in
                      match skip_ws r3 with
                      | ","%char :: r4 => read_members fuel' r4 acc'
                      | "}"%char :: r4 => Some (acc', r4)
                      | _ => None
                      end
                  | None => None
                  end
              | _ => None
              end
          | None => None
          end
      | _ => None
      end
  end

with read_elements (fuel : nat) (s : list ascii) (acc : list FJsonValue)
  {struct fuel} : option (list FJsonValue * list ascii) :=
  match fuel with
  | O => None
  | S fuel' =>
      match read_value fuel' s with
      | Some (v, r) =>
          match skip_ws r with
          | ","%char :: r' => read_elements fuel' r' (v :: acc)
          | "]"%char :: r' => Some (rev (v :: acc), r')
          | _ => None
          end
      | None => None
      end
  end.

(** [Deserialize] into an object: the text must be one JSON object. *)
Definition Deserialize_ref (text : string) : option Fields :=
  let s := list_ascii_of_string text in
  match read_value (S (List.length s)) s with
  | Some (FJsonValueObject Values, rest) =>
      match skip_ws rest with
      | [] => Some Values
      | _ => None
      end
  | _ => None
  end.

(** *** Writer *)

(** The writer of [TJsonWriterFactory<>::Create] is the engine's default
    one, which lays the text out on lines.  [LINE_TERMINATOR] is the line
    end of the platform. *)

Definition hex_char (n : nat) : ascii :=
  if Nat.leb n 9 then ascii_of_nat (48 + n) else ascii_of_nat (87 + n).

(** Escaping of a string: the backslash, the quote and the control
    characters. *)
Fixpoint escape (s : list ascii) : list ascii :=
  match s with
  | [] => []
  | "034"%char :: r => "\"%char :: "034"%char :: escape r
  | "\"%char :: r => "\"%char :: "\"%char :: escape r
  | "010"%char :: r => "\"%char :: "n"%char :: escape r
  | "013"%char :: r => "\"%char :: "r"%char :: escape r
  | "009"%char :: r => "\"%char :: "t"%char :: escape r
  | "008"%char :: r => "\"%char :: "b"%char :: escape r
  | "012"%char :: r => "\"%char :: "f"%char :: escape r
  | c :: r =>
      let n := nat_of_ascii c in
      if Nat.leb 32 n then c :: escape r
      else "\"%char :: "u"%char :: "0"%char :: "0"%char
           :: hex_char (Nat.div n 16) :: hex_char (Nat.modulo n 16) :: escape r
  end.

Definition quote (s : string) : string :=
  String "034"%char
    (string_of_list_ascii (escape (list_ascii_of_string s)) ++ String "034"%char EmptyString).

(** The last token written, which decides what separates the next one
    from it. *)
Inductive EJsonToken : Type :=
| TokenNone | CurlyOpen | CurlyClose | SquareOpen | SquareClose
| TokenString | TokenNumber | TokenTrue | TokenFalse | TokenNull.

Definition last_token (v : FJsonValue) : EJsonToken :=
  match v with
  | FJsonValueNull => TokenNull
  | FJsonValueString _ => TokenString
  | FJsonValueNumber _ => TokenNumber
  | FJsonValueBoolean b => if b then TokenTrue else TokenFalse
  | FJsonValueArray _ => SquareClose
  | FJsonValueObject _ => CurlyClose
  end.

Definition comma_if_needed (prev : EJsonToken) : string :=
  match prev with
  | CurlyOpen | SquareOpen => ""
  | _ => ","
  end.

Definition is_short_value (prev : EJsonToken) : bool :=
  match prev with
  | TokenNumber | TokenTrue | TokenFalse | TokenNull => true
  | _ => false
  end.

Fixpoint tabs (IndentLevel : nat) : string :=
  match IndentLevel with
  | O => ""
  | S n => String "009"%char (tabs n)
  end.

Section Writer.
Variable LINE_TERMINATOR : string.

Definition new_line (IndentLevel : nat) : string :=
  LINE_TERMINATOR ++ tabs IndentLevel.

(** [WriteIdentifier] *)
Definition write_identifier (IndentLevel : nat) (prev : EJsonToken)
  (Identifier : string) : string :=
  comma_if_needed prev ++ new_line IndentLevel ++ quote Identifier ++ ":".

(** What comes before a value: its identifier inside an object, a
    separator inside an array, nothing at the root. *)
Definition lead (IndentLevel : nat) (prev : EJsonToken)
  (Identifier : option string) (after_identifier : string)
  (in_array : EJsonToken -> string) : string :=
  match Identifier with
  | Some name => write_identifier IndentLevel prev name ++ after_identifier
  | None =>
      match prev with
      | TokenNone => ""
      | _ => comma_if_needed prev ++ in_array prev
      end
  end.

Fixpoint write_value (IndentLevel : nat) (prev : EJsonToken)
  (Identifier : option string) (v : FJsonValue) {struct v} : string :=
  let spaced := fun p : EJsonToken =>
    match p with
    | SquareOpen => " "
    | _ => if is_short_value p then " " else new_line IndentLevel
    end in
  match v with
  | FJsonValueNull =>
      lead IndentLevel prev Identifier " " spaced ++ "null"
  | FJsonValueNumber lexeme =>
      lead IndentLevel prev Identifier " " spaced ++ lexeme
  | FJsonValueBoolean b =>
      lead IndentLevel prev Identifier " " spaced ++ (if b then "true" else "false")
  | FJsonValueString str =>
      lead IndentLevel prev Identifier " " (fun _ => new_line IndentLevel)
      ++ quote str
  | FJsonValueArray vs =>
      lead IndentLevel prev Identifier " " (fun _ => new_line IndentLevel)
      ++ "["
      ++ (fix elements (p : EJsonToken) (l : list FJsonValue) {struct l} : string :=
            match l with
            | [] =>
                match p with
                | SquareClose | CurlyClose | TokenString => new_line IndentLevel
                | SquareOpen => ""
                | _ => " "
                end
            | x :: l' =>
                write_value (S IndentLevel) p None x ++ elements (last_token x) l'
            end) SquareOpen vs
      ++ "]"
  | FJsonValueObject fs =>
      lead IndentLevel prev Identifier (new_line IndentLevel)
        (fun _ => new_line IndentLevel)
      ++ "{"
      ++ (fix members (p : EJsonToken) (l : Fields) {struct l} : string :=
            match l with
            | [] => ""
            | (k, x) :: l' =>
                write_value (S IndentLevel) p (Some k) x ++ members (last_token x) l'
            end) CurlyOpen fs
      ++ new_line IndentLevel ++ "}"
  end.

Definition Serialize_ref (o : Fields) : string :=
  write_value 0 TokenNone None (FJsonValueObject o).

Definition ReferenceJsonOn : JsonLibrary := {|
  FJsonObject := Fields;
  NewObject := [];
  SetStringField := fun o k v => SetField o k (FJsonValueString v);
  GetObjectField := GetObjectField_ref;
  GetStringField := GetStringField_ref;
  Serialize := Serialize_ref;
  Deserialize := Deserialize_ref
|}.

End Writer.

(** The line end of Windows, where it is a carriage return and a line
    feed; elsewhere it is the line feed alone. *)
Definition CRLF : string := String "013"%char (String "010"%char EmptyString).

#[export] Instance ReferenceJson : JsonLibrary := ReferenceJsonOn CRLF.

(** JSON text is written in this file with an apostrophe where the text has
    a double quote. *)
Fixpoint json_text (s : string) : string :=
  match s with
  | EmptyString => EmptyString
  | String c r => String (if Ascii.eqb c "'" then "034"%char else c) (json_text r)
  end.

Example json_text_quotes :
  json_text "{'a':1}"
  = String "{" (String "034" (String "a" (String "034" (String ":" (String "1" "}"))))).
Proof. reflexivity. Qed.

Example Deserialize_nested :
  Deserialize_ref (json_text " { 'a' : [1, -2.5e+3, true, null, 'x\ny'], 'b' : {} , 'a': 3 } ")
  = Some [("a", FJsonValueNumber "3"); ("b", FJsonValueObject [])].
Proof. reflexivity. Qed.

Example Deserialize_array_is_no_object : Deserialize_ref "[]" = None.
Proof. reflexivity. Qed.

Example Serialize_credentials :
  Serialize_ref CRLF
    (SetField (SetField [] "username" (FJsonValueString "u"))
       "password" (FJsonValueString "p"))
  = "{" ++ CRLF
    ++ String "009"%char (json_text "'username': 'u',") ++ CRLF
    ++ String "009"%char (json_text "'password': 'p'") ++ CRLF
    ++ "}".
Proof. reflexivity. Qed.

Example Serialize_array_and_object :
  Serialize_ref "|"
    [("a", FJsonValueArray [FJsonValueNumber "1"; FJsonValueNumber "2"]);
     ("b", FJsonValueObject [("c", FJsonValueNull)])]
  = "{|" ++ String "009"%char (json_text "'a': [ 1, 2 ],|")
    ++ String "009"%char (json_text "'b':|")
    ++ String "009"%char "{|"
    ++ String "009"%char (String "009"%char (json_text "'c': null|"))
    ++ String "009"%char "}|}".
Proof. reflexivity. Qed.

Example Find_ignores_case :
  Find [("Tokens", FJsonValueObject [("idtoken", FJsonValueString "abc")])]
    "tokens"
  = Some (FJsonValueObject [("idtoken", FJsonValueString "abc")]).
Proof. reflexivity. Qed.

Example Deserialize_hex_escape :
  Deserialize_ref (json_text "{'t':'a\u0041'}")
  = Some [("t", FJsonValueString "aA")].
Proof. reflexivity. Qed.

Example Deserialize_leading_zero : Deserialize_ref (json_text "{'n':01}") = None.
Proof. reflexivity. Qed.

(** Whether the object has a value at [tokens.IdToken]. *)
Definition has_IdToken (o : Fields) : bool :=
  match Find o "tokens" with
  | Some (FJsonValueObject tokens) =>
      match Find tokens "IdToken" with
      | Some _ => true
      | None => false
      end
  | _ => false
  end.

End Json.

(* ===================================================================== *)
(** * The menu widget ([OfflineMainMenuWidget.cpp]) *)
(* ===================================================================== *)

Module Client.
Import Json.

(** ** Engine types the widget handles *)

(** The completion delegate of a request.  The widget binds it with
    [BindUObject(this, &UOfflineMainMenuWidget::M)]; [M] is one of its two
    response handlers. *)
Inductive FHttpRequestCompleteDelegate : Type :=
| Unbound
| Bound_OnLoginResponse
| Bound_OnStartSessionResponse.

Record IHttpRequest : Type := {
  Verb : string;
  URL : string;
  Headers : list (string * string);
  Content : string;
  OnProcessRequestComplete : FHttpRequestCompleteDelegate
}.

Record FHttpResponse : Type := { GetContentAsString : string }.

(** The name built from [LevelName] for [OpenLevel]. *)
Inductive FName : Type := Name (s : string).

(** [Http->CreateRequest()]: nothing set yet. *)
Definition CreateRequest : IHttpRequest :=
  {| Verb := ""; URL := ""; Headers := []; Content := "";
     OnProcessRequestComplete := Unbound |}.

Definition SetVerb (r : IHttpRequest) (v : string) : IHttpRequest :=
  {| Verb := v; URL := URL r; Headers := Headers r; Content := Content r;
     OnProcessRequestComplete := OnProcessRequestComplete r |}.

Definition SetURL (r : IHttpRequest) (u : string) : IHttpRequest :=
  {| Verb := Verb r; URL := u; Headers := Headers r; Content := Content r;
     OnProcessRequestComplete := OnProcessRequestComplete r |}.

Fixpoint set_header (hs : list (string * string)) (name value : string)
  : list (string * string) :=
  match hs with
  | [] => [(name, value)]
  | (k, v) :: rest =>
      if String.eqb k name then (k, value) :: rest
      else (k, v) :: set_header rest name value
  end.

Definition SetHeader (r : IHttpRequest) (name value : string) : IHttpRequest :=
  {| Verb := Verb r; URL := URL r; Headers := set_header (Headers r) name value;
     Content := Content r;
     OnProcessRequestComplete := OnProcessRequestComplete r |}.

Definition SetContentAsString (r : IHttpRequest) (body : string) : IHttpRequest :=
  {| Verb := Verb r; URL := URL r; Headers := Headers r; Content := body;
     OnProcessRequestComplete := OnProcessRequestComplete r |}.

Definition BindUObject (r : IHttpRequest) (d : FHttpRequestCompleteDelegate)
  : IHttpRequest :=
  {| Verb := Verb r; URL := URL r; Headers := Headers r; Content := Content r;
     OnProcessRequestComplete := d |}.

(** What a method of the widget does to the outside, in order. *)
Inductive Effect : Type :=
| ProcessRequest (Request : IHttpRequest)
| OpenLevel (LevelName : FName) (bAbsolute : bool).

(** ** The widget *)

Record UOfflineMainMenuWidget : Type := {
  ApiGatewayEndpoint : string;
  LoginURI : string;
  StartSessionURI : string;
  user : string;
  pass : string
}.

(** The constructor.  [user] and [pass] are left to the Blueprint. *)
Definition Construct : UOfflineMainMenuWidget :=
  {| ApiGatewayEndpoint :=
       "https://yfg5i8v0w4.execute-api.us-west-2.amazonaws.com/potato-api-test-stage";
     LoginURI := "/login";
     StartSessionURI := "/startsession";
     user := "";
     pass := "" |}.

Section Methods.
Context {J : JsonLibrary}.

Definition LoginRequest (this : UOfflineMainMenuWidget) (usr pwd : string)
  : list Effect :=
  let JsonObject := NewObject in
  let JsonObject := SetStringField JsonObject "username" usr in
  let JsonObject := SetStringField JsonObject "password" pwd in
  let JsonBody := Serialize JsonObject in
  let LoginHttpRequest := CreateRequest in
  let LoginHttpRequest := SetVerb LoginHttpRequest "POST" in
  let LoginHttpRequest :=
    SetURL LoginHttpRequest (ApiGatewayEndpoint this ++ LoginURI this) in
  let LoginHttpRequest :=
    SetHeader LoginHttpRequest "Content-Type" "application/json" in
  let LoginHttpRequest := SetContentAsString LoginHttpRequest JsonBody in
  let LoginHttpRequest := BindUObject LoginHttpRequest Bound_OnLoginResponse in
  [ProcessRequest LoginHttpRequest].

Definition OnLoginClicked (this : UOfflineMainMenuWidget) : list Effect :=
  LoginRequest this (user this) (pass this).

Definition StartSessionRequest (this : UOfflineMainMenuWidget) (idt : string)
  : list Effect :=
  let StartSessionHttpRequest := CreateRequest in
  let StartSessionHttpRequest := SetVerb StartSessionHttpRequest "GET" in
  let StartSessionHttpRequest :=
    SetURL StartSessionHttpRequest (ApiGatewayEndpoint this ++ StartSessionURI this) in
  let StartSessionHttpRequest :=
    SetHeader StartSessionHttpRequest "Content-Type" "application/json" in
  let StartSessionHttpRequest :=
    SetHeader StartSessionHttpRequest "Authorization" idt in
  let StartSessionHttpRequest :=
    BindUObject StartSessionHttpRequest Bound_OnStartSessionResponse in
  [ProcessRequest StartSessionHttpRequest].

(** [Response] is only read when [bWasSuccessful] holds, and the HTTP
    module then passes a valid response. *)
Definition OnLoginResponse (this : UOfflineMainMenuWidget)
  (Request : IHttpRequest) (Response : FHttpResponse) (bWasSuccessful : bool)
  : list Effect :=
  if bWasSuccessful then
    match Deserialize (GetContentAsString Response) with
    | Some JsonObject =>
        let IdToken := GetStringField (GetObjectField JsonObject "tokens") "IdToken" in
        StartSessionRequest this IdToken
    | None => []
    end
  else [].

Definition OnStartSessionResponse (this : UOfflineMainMenuWidget)
  (Request : IHttpRequest) (Response : FHttpResponse) (bWasSuccessful : bool)
  : list Effect :=
  if bWasSuccessful then
    match Deserialize (GetContentAsString Response) with
    | Some JsonObject =>
        let IpAddress := GetStringField (GetObjectField JsonObject "PlayerSession") "IpAddress" in
        let Port := GetStringField (GetObjectField JsonObject "PlayerSession") "Port" in
        let LevelName := IpAddress ++ ":" ++ Port in
        [OpenLevel (Name LevelName) false]
    | None => []
    end
  else [].

(** ** The widget among the UI and the HTTP module *)

(** The HTTP module fires the delegate of a finished request. *)
Definition Execute (d : FHttpRequestCompleteDelegate)
  (this : UOfflineMainMenuWidget)
  (Request : IHttpRequest) (Response : FHttpResponse) (bWasSuccessful : bool)
  : list Effect :=
  match d with
  | Unbound => []
  | Bound_OnLoginResponse => OnLoginResponse this Request Response bWasSuccessful
  | Bound_OnStartSessionResponse =>
      OnStartSessionResponse this Request Response bWasSuccessful
  end.

(** The state of one client.  Every click on the login button starts a
    login attempt; attempts are numbered from 0.  The number of the attempt
    that caused a request or an [OpenLevel] is bookkeeping of the model: no
    method reads it. *)
Record System : Type := {
  Widget : UOfflineMainMenuWidget;
  (** number of clicks so far *)
  Attempts : nat;
  (** requests handed to [ProcessRequest] and not yet completed *)
  InFlight : list (nat * IHttpRequest);
  (** completed requests with their [bWasSuccessful] *)
  Finished : list (nat * (IHttpRequest * bool));
  (** calls of [UGameplayStatics::OpenLevel] *)
  Opened : list (nat * (FName * bool))
}.

Definition start (w : UOfflineMainMenuWidget) : System :=
  {| Widget := w; Attempts := 0; InFlight := []; Finished := []; Opened := [] |}.

Definition perform1 (a : nat) (s : System) (e : Effect) : System :=
  match e with
  | ProcessRequest r =>
      {| Widget := Widget s; Attempts := Attempts s;
         InFlight := (InFlight s ++ [(a, r)])%list;
         Finished := Finished s; Opened := Opened s |}
  | OpenLevel n b =>
      {| Widget := Widget s; Attempts := Attempts s;
         InFlight := InFlight s;
         Finished := Finished s; Opened := (Opened s ++ [(a, (n, b))])%list |}
  end.

Definition perform (a : nat) (effects : list Effect) (s : System) : System :=
  fold_left (perform1 a) effects s.

Fixpoint remove_nth {X : Type} (n : nat) (l : list X) : list X :=
  match n, l with
  | _, [] => []
  | O, _ :: l' => l'
  | S n', x :: l' => x :: remove_nth n' l'
  end.

Inductive Event : Type :=
(** the Blueprint writes [user] or [pass] *)
| SetUser (s : string)
| SetPass (s : string)
(** the login button: [OnLoginClicked] *)
| Click
(** the HTTP module completes the [n]-th request in flight *)
| Complete (n : nat) (Response : FHttpResponse) (bWasSuccessful : bool).

Definition step (s : System) (ev : Event) : System :=
  match ev with
  | SetUser u =>
      {| Widget := {| ApiGatewayEndpoint := ApiGatewayEndpoint (Widget s);
                      LoginURI := LoginURI (Widget s);
                      StartSessionURI := StartSessionURI (Widget s);
                      user := u; pass := pass (Widget s) |};
         Attempts := Attempts s; InFlight := InFlight s;
         Finished := Finished s; Opened := Opened s |}
  | SetPass p =>
      {| Widget := {| ApiGatewayEndpoint := ApiGatewayEndpoint (Widget s);
                      LoginURI := LoginURI (Widget s);
                      StartSessionURI := StartSessionURI (Widget s);
                      user := user (Widget s); pass := p |};
         Attempts := Attempts s; InFlight := InFlight s;
         Finished := Finished s; Opened := Opened s |}
  | Click =>
      perform (Attempts s) (OnLoginClicked (Widget s))
        {| Widget := Widget s; Attempts := S (Attempts s);
           InFlight := InFlight s; Finished := Finished s; Opened := Opened s |}
  | Complete n Response bWasSuccessful =>
      match nth_error (InFlight s) n with
      | None => s
      | Some (a, Request) =>
          perform a
            (Execute (OnProcessRequestComplete Request) (Widget s)
               Request Response bWasSuccessful)
            {| Widget := Widget s; Attempts := Attempts s;
               InFlight := remove_nth n (InFlight s);
               Finished := (Finished s ++ [(a, (Request, bWasSuccessful))])%list;
               Opened := Opened s |}
      end
  end.

Definition run (s : System) (evs : list Event) : System := fold_left step evs s.

End Methods.

(** ** Bookkeeping per login attempt *)

Definition is_login (r : IHttpRequest) : bool :=
  match OnProcessRequestComplete r with
  | Bound_OnLoginResponse => true
  | _ => false
  end.

Definition is_session (r : IHttpRequest) : bool :=
  match OnProcessRequestComplete r with
  | Bound_OnStartSessionResponse => true
  | _ => false
  end.

Definition count {X : Type} (p : X -> bool) (l : list X) : nat :=
  List.length (filter p l).

(** Entries of attempt [a] that satisfy [p]. *)
Definition of_attempt {X : Type} (a : nat) (p : X -> bool) (e : nat * X) : bool :=
  Nat.eqb (fst e) a && p (snd e).

Definition succeeded (p : IHttpRequest -> bool) (e : IHttpRequest * bool) : bool :=
  p (fst e) && snd e.

Definition failed (p : IHttpRequest -> bool) (e : IHttpRequest * bool) : bool :=
  p (fst e) && negb (snd e).

Definition completed (p : IHttpRequest -> bool) (e : IHttpRequest * bool) : bool :=
  p (fst e).

(** The order of one attempt: one login request per started attempt; a
    session request only after a login that succeeded; a level opened only
    after a session request that succeeded. *)
Record attempt_ok (s : System) (a : nat) : Prop := {
  one_login :
    count (of_attempt a is_login) (InFlight s)
    + count (of_attempt a (completed is_login)) (Finished s)
    = if Nat.ltb a (Attempts s) then 1 else 0;
  session_after_login :
    count (of_attempt a is_session) (InFlight s)
    + count (of_attempt a (completed is_session)) (Finished s)
    <= count (of_attempt a (succeeded is_login)) (Finished s);
  level_after_session :
    count (of_attempt a (fun _ => true)) (Opened s)
    <= count (of_attempt a (succeeded is_session)) (Finished s)
}.

Definition invariant (s : System) : Prop := forall a, attempt_ok s a.

(** ** Facts *)

Section Counting.
Context {X : Type}.

Lemma count_app (p : X -> bool) (l1 l2 : list X) :
  count p (l1 ++ l2)%list = count p l1 + count p l2.
Proof.
  unfold count. rewrite filter_app, length_app. reflexivity.
Qed.

Lemma count_snoc (p : X -> bool) (l : list X) (x : X) :
  count p (l ++ [x])%list = count p l + (if p x then 1 else 0).
Proof.
  rewrite count_app. unfold count. simpl. destruct (p x); reflexivity.
Qed.

Lemma count_remove_nth (p : X -> bool) (l : list X) (n : nat) (x : X) :
  nth_error l n = Some x ->
  count p (remove_nth n l) + (if p x then 1 else 0) = count p l.
Proof.
  revert n. induction l as [|y l IH]; intros [|n] H; simpl in H; try discriminate.
  - injection H as ->. unfold count. simpl. destruct (p x); simpl; lia.
  - specialize (IH n H). unfold count in *. simpl.
    destruct (p y); simpl; lia.
Qed.

Lemma count_le (p q : X -> bool) (l : list X) :
  (forall x, p x = true -> q x = true) -> count p l <= count q l.
Proof.
  intros Hpq. unfold count. induction l as [|y l IH]; simpl; [lia|].
  destruct (p y) eqn:Hp.
  - rewrite (Hpq y Hp). simpl. lia.
  - destruct (q y); simpl; lia.
Qed.

Lemma count_In (p : X -> bool) (l : list X) (x : X) :
  In x l -> p x = true -> 1 <= count p l.
Proof.
  intros Hin Hp. unfold count.
  assert (Hf : In x (filter p l)) by (apply filter_In; split; assumption).
  destruct (filter p l); [contradiction | simpl; lia].
Qed.

Lemma count_split (p q r : X -> bool) (l : list X) :
  (forall x, p x = true -> q x = true /\ r x = false \/ q x = false /\ r x = true) ->
  (forall x, p x = false -> q x = false /\ r x = false) ->
  count p l = count q l + count r l.
Proof.
  intros Ht Hf. unfold count. induction l as [|y l IH]; simpl; [reflexivity|].
  destruct (p y) eqn:Hp.
  - destruct (Ht y Hp) as [[-> ->] | [-> ->]]; simpl; lia.
  - destruct (Hf y Hp) as [-> ->]. exact IH.
Qed.

End Counting.

Section Facts.
Context {J : JsonLibrary}.

(** The request [StartSessionRequest] builds. *)
Definition session_request (this : UOfflineMainMenuWidget) (idt : string)
  : IHttpRequest :=
  {| Verb := "GET";
     URL := ApiGatewayEndpoint this ++ StartSessionURI this;
     Headers := [("Content-Type", "application/json"); ("Authorization", idt)];
     Content := "";
     OnProcessRequestComplete := Bound_OnStartSessionResponse |}.

(** The request [LoginRequest] builds. *)
Definition login_request (this : UOfflineMainMenuWidget) (usr pwd : string)
  : IHttpRequest :=
  {| Verb := "POST";
     URL := ApiGatewayEndpoint this ++ LoginURI this;
     Headers := [("Content-Type", "application/json")];
     Content :=
       Serialize (SetStringField (SetStringField NewObject "username" usr)
                    "password" pwd);
     OnProcessRequestComplete := Bound_OnLoginResponse |}.

Lemma StartSessionRequest_eq this idt :
  StartSessionRequest this idt = [ProcessRequest (session_request this idt)].
Proof. reflexivity. Qed.

Lemma LoginRequest_eq this usr pwd :
  LoginRequest this usr pwd = [ProcessRequest (login_request this usr pwd)].
Proof. reflexivity. Qed.

Lemma OnLoginResponse_cases this Request Response ok :
  OnLoginResponse this Request Response ok = []
  \/ ok = true
     /\ exists idt,
          OnLoginResponse this Request Response ok
          = [ProcessRequest (session_request this idt)].
Proof.
  unfold OnLoginResponse. destruct ok; [|left; reflexivity].
  destruct (Deserialize (GetContentAsString Response)) as [o|]; [|left; reflexivity].
  right. split; [reflexivity|]. eexists. apply StartSessionRequest_eq.
Qed.

Lemma OnStartSessionResponse_cases this Request Response ok :
  OnStartSessionResponse this Request Response ok = []
  \/ ok = true
     /\ exists LevelName,
          OnStartSessionResponse this Request Response ok
          = [OpenLevel LevelName false].
Proof.
  unfold OnStartSessionResponse. destruct ok; [|left; reflexivity].
  destruct (Deserialize (GetContentAsString Response)) as [o|]; [|left; reflexivity].
  right. split; [reflexivity|]. eexists. reflexivity.
Qed.

Lemma start_invariant w : invariant (start w).
Proof.
  intros a. constructor; simpl; unfold count; simpl; lia.
Qed.

Ltac count_steps :=
  unfold perform in *; simpl fold_left in *; simpl Attempts in *;
  simpl InFlight in *; simpl Finished in *; simpl Opened in *;
  rewrite ?count_snoc in *;
  unfold of_attempt, completed, succeeded, failed, is_login, is_session in *;
  simpl fst in *; simpl snd in *; simpl OnProcessRequestComplete in *.

Lemma step_invariant s ev : invariant s -> invariant (step s ev).
Proof.
  intros Hinv a. destruct (Hinv a) as [H1 H2 H3].
  destruct ev as [u|pw| |n Response ok]; unfold step.
  - constructor; assumption.
  - constructor; assumption.
  - unfold OnLoginClicked. rewrite LoginRequest_eq.
    destruct (Hinv (Attempts s)) as [K1 K2 K3].
    rewrite Nat.ltb_irrefl in K1.
    assert (Hlt : Nat.ltb a (S (Attempts s))
                  = if Nat.eqb (Attempts s) a then true else Nat.ltb a (Attempts s)).
    { destruct (Nat.eqb_spec (Attempts s) a) as [E|E];
        destruct (Nat.ltb_spec a (S (Attempts s)));
        destruct (Nat.ltb_spec a (Attempts s)); try reflexivity; lia. }
    constructor; count_steps; rewrite ?Hlt;
      destruct (Nat.eqb (Attempts s) a) eqn:E; simpl;
      try (apply Nat.eqb_eq in E; subst a; rewrite Nat.ltb_irrefl in *);
      lia.
  - destruct (nth_error (InFlight s) n) as [[b Request]|] eqn:Hn;
      [|constructor; assumption].
    pose proof (count_remove_nth (of_attempt a is_login) _ _ _ Hn) as Rl.
    pose proof (count_remove_nth (of_attempt a is_session) _ _ _ Hn) as Rs.
    unfold Execute.
    destruct (OnProcessRequestComplete Request) eqn:Hd.
    + constructor; count_steps; rewrite Hd in *;
        rewrite ?andb_false_r in *; simpl in *; lia.
    + destruct (OnLoginResponse_cases (Widget s) Request Response ok)
        as [-> | [-> [idt ->]]];
        constructor; count_steps; rewrite Hd in *;
        rewrite ?andb_false_r, ?andb_true_r in *;
        destruct (Nat.eqb b a); simpl in *; lia.
    + destruct (OnStartSessionResponse_cases (Widget s) Request Response ok)
        as [-> | [-> [LevelName ->]]];
        constructor; count_steps; rewrite Hd in *;
        rewrite ?andb_false_r, ?andb_true_r in *;
        destruct (Nat.eqb b a); simpl in *; lia.
Qed.

Lemma run_invariant evs : forall s, invariant s -> invariant (run s evs).
Proof.
  induction evs as [|ev evs IH]; intros s Hs; simpl; [exact Hs|].
  apply IH, step_invariant, Hs.
Qed.

Lemma run_app s evs1 evs2 : run s (evs1 ++ evs2)%list = run (run s evs1) evs2.
Proof. unfold run. apply fold_left_app. Qed.

(** Completed requests stay on record. *)
Lemma perform_Finished a effects s :
  Finished (perform a effects s) = Finished s.
Proof.
  revert s. induction effects as [|e effects IH]; intros s; [reflexivity|].
  unfold perform in *. simpl. rewrite IH. destruct e; reflexivity.
Qed.

Lemma step_Finished s ev x : In x (Finished s) -> In x (Finished (step s ev)).
Proof.
  intros Hin. destruct ev as [u|pw| |n Response ok]; unfold step.
  - assumption.
  - assumption.
  - rewrite perform_Finished. assumption.
  - destruct (nth_error (InFlight s) n) as [[b Request]|]; [|assumption].
    rewrite perform_Finished. simpl. apply in_or_app. left. assumption.
Qed.

Lemma run_Finished evs : forall s x, In x (Finished s) -> In x (Finished (run s evs)).
Proof.
  induction evs as [|ev evs IH]; intros s x Hin; simpl; [assumption|].
  apply IH, step_Finished, Hin.
Qed.

(** The login operation itself: one POST to the login URI, bound to
    [OnLoginResponse], and nothing else. *)
Lemma OnLoginClicked_eq this :
  OnLoginClicked this
  = [ProcessRequest (login_request this (user this) (pass this))].
Proof. reflexivity. Qed.

(** [OnLoginResponse] written out. *)
Lemma OnLoginResponse_eq this Request Response ok :
  OnLoginResponse this Request Response ok
  = if ok then
      match Deserialize (GetContentAsString Response) with
      | Some o =>
          [ProcessRequest
             (session_request this
                (GetStringField (GetObjectField o "tokens") "IdToken"))]
      | None => []
      end
    else [].
Proof. reflexivity. Qed.

(** C1, as the code has it: the login operation issues exactly the POST
    request to the login URI and nothing else; its response handler never
    opens a level, but it is the handler itself that sends the session
    request, with the token it read, whenever the transport succeeded and
    the body deserializes.  A run made of a click and the completion of the
    login request has opened no level. *)
Theorem login_chains_session_request_but_opens_no_level
  this usr pwd Request Response ok :
  LoginRequest this usr pwd = [ProcessRequest (login_request this usr pwd)]
  /\ (forall LevelName bAbsolute,
        ~ In (OpenLevel LevelName bAbsolute)
             (OnLoginResponse this Request Response ok))
  /\ OnLoginResponse this Request Response ok
     = (if ok then
          match Deserialize (GetContentAsString Response) with
          | Some o =>
              StartSessionRequest this
                (GetStringField (GetObjectField o "tokens") "IdToken")
          | None => []
          end
        else [])
  /\ Opened (run (start this) [Click; Complete 0 Response ok]) = [].
Proof.
  split; [reflexivity|]. split; [|split].
  - intros LevelName bAbsolute Hin.
    destruct (OnLoginResponse_cases this Request Response ok)
      as [E | [_ [idt E]]]; rewrite E in Hin; simpl in Hin.
    + exact Hin.
    + destruct Hin as [Hin|[]]. discriminate Hin.
  - reflexivity.
  - unfold run. simpl fold_left.
    match goal with
    | |- context [OnLoginResponse ?t ?r ?R ?b] =>
        destruct (OnLoginResponse_cases t r R b) as [E | [_ [idt E]]]; rewrite E
    end; reflexivity.
Qed.

(** C5: once the login request of an attempt has completed without
    transport success, no level is opened for that attempt, whatever the
    UI and the HTTP module do and answer afterwards. *)
Theorem failed_login_opens_no_level this evs later a Request :
  In (a, (Request, false)) (Finished (run (start this) evs)) ->
  OnProcessRequestComplete Request = Bound_OnLoginResponse ->
  forall LevelName bAbsolute,
    ~ In (a, (LevelName, bAbsolute))
         (Opened (run (start this) (evs ++ later)%list)).
Proof.
  intros Hfin Hbound LevelName bAbsolute Hopen.
  assert (Hinv : invariant (run (start this) (evs ++ later)%list))
    by apply run_invariant, start_invariant.
  rewrite run_app in Hopen, Hinv.
  apply (run_Finished later) in Hfin.
  set (s := run (run (start this) evs) later) in *.
  destruct (Hinv a) as [H1 H2 H3].
  assert (Hfail : 1 <= count (of_attempt a (failed is_login)) (Finished s)).
  { apply (count_In _ _ _ Hfin). unfold of_attempt, failed, is_login. simpl.
    rewrite Hbound, Nat.eqb_refl. reflexivity. }
  assert (Hsplit :
    count (of_attempt a (completed is_login)) (Finished s)
    = count (of_attempt a (succeeded is_login)) (Finished s)
      + count (of_attempt a (failed is_login)) (Finished s)).
  { apply count_split; intros [b [r ok]];
      unfold of_attempt, completed, succeeded, failed; simpl;
      destruct (Nat.eqb b a), (is_login r), ok; simpl; intros; try discriminate; auto. }
  assert (Hle :
    count (of_attempt a (succeeded is_session)) (Finished s)
    <= count (of_attempt a (completed is_session)) (Finished s)).
  { apply count_le. intros [b [r ok]].
    unfold of_attempt, completed, succeeded. simpl.
    destruct (Nat.eqb b a), (is_session r), ok; simpl; intros; try discriminate; auto. }
  assert (Hopened : 1 <= count (of_attempt a (fun _ => true)) (Opened s)).
  { apply (count_In _ _ _ Hopen). unfold of_attempt. simpl.
    rewrite Nat.eqb_refl. reflexivity. }
  destruct (Nat.ltb a (Attempts s)); lia.
Qed.

(** ** More on the runs of the widget *)

Lemma count_pos_In {X : Type} (p : X -> bool) (l : list X) :
  1 <= count p l -> exists x, In x l /\ p x = true.
Proof.
  unfold count. intros H.
  destruct (filter p l) as [|x f] eqn:E; [simpl in H; lia|].
  exists x. apply filter_In. rewrite E. left. reflexivity.
Qed.

Lemma In_remove_nth {X : Type} (n : nat) (l : list X) (x : X) :
  In x (remove_nth n l) -> In x l.
Proof.
  revert n. induction l as [|y l IH]; intros [|n] H; simpl in *; auto.
  destruct H as [H|H]; [left; exact H | right; exact (IH n H)].
Qed.

(** The invariant at the end of a run. *)
Lemma run_attempt_ok this evs a : attempt_ok (run (start this) evs) a.
Proof. apply run_invariant, start_invariant. Qed.

Lemma succeeded_le_completed p a (l : list (nat * (IHttpRequest * bool))) :
  count (of_attempt a (succeeded p)) l <= count (of_attempt a (completed p)) l.
Proof.
  apply count_le. intros [b [r ok]].
  unfold of_attempt, completed, succeeded. simpl.
  destruct (Nat.eqb b a), (p r), ok; simpl; intros; try discriminate; auto.
Qed.

Lemma completed_split p a (l : list (nat * (IHttpRequest * bool))) :
  count (of_attempt a (completed p)) l
  = count (of_attempt a (succeeded p)) l + count (of_attempt a (failed p)) l.
Proof.
  apply count_split; intros [b [r ok]];
    unfold of_attempt, completed, succeeded, failed; simpl;
    destruct (Nat.eqb b a), (p r), ok; simpl; intros; try discriminate; auto.
Qed.

(** X4: for each login attempt the widget sends at most one login request
    and at most one session request, and opens at most one level, whatever
    the HTTP module answers: nothing is sent again. *)
Theorem at_most_one_of_each_per_attempt this evs a :
  let s := run (start this) evs in
  count (of_attempt a is_login) (InFlight s)
  + count (of_attempt a (completed is_login)) (Finished s) <= 1
  /\ count (of_attempt a is_session) (InFlight s)
     + count (of_attempt a (completed is_session)) (Finished s) <= 1
  /\ count (of_attempt a (fun _ => true)) (Opened s) <= 1.
Proof.
  intros s. destruct (run_attempt_ok this evs a) as [H1 H2 H3]. fold s in H1, H2, H3.
  pose proof (succeeded_le_completed is_login a (Finished s)).
  pose proof (succeeded_le_completed is_session a (Finished s)).
  destruct (Nat.ltb a (Attempts s)); lia.
Qed.

(** X5: a session request, in flight or completed, belongs to an attempt
    whose login request has completed with transport success: the widget
    never asks for a session before that. *)
Theorem session_request_follows_successful_login this evs a Request :
  In (a, Request) (InFlight (run (start this) evs))
  \/ (exists ok, In (a, (Request, ok)) (Finished (run (start this) evs))) ->
  OnProcessRequestComplete Request = Bound_OnStartSessionResponse ->
  exists Login,
    OnProcessRequestComplete Login = Bound_OnLoginResponse
    /\ In (a, (Login, true)) (Finished (run (start this) evs)).
Proof.
  intros Hin Hbound.
  destruct (run_attempt_ok this evs a) as [_ H2 _].
  set (s := run (start this) evs) in *.
  assert (Hone : 1 <= count (of_attempt a is_session) (InFlight s)
                      + count (of_attempt a (completed is_session)) (Finished s)).
  { destruct Hin as [Hin|[ok Hin]].
    - assert (1 <= count (of_attempt a is_session) (InFlight s)); [|lia].
      apply (count_In _ _ _ Hin). unfold of_attempt, is_session. simpl.
      rewrite Hbound, Nat.eqb_refl. reflexivity.
    - assert (1 <= count (of_attempt a (completed is_session)) (Finished s)); [|lia].
      apply (count_In _ _ _ Hin). unfold of_attempt, completed, is_session. simpl.
      rewrite Hbound, Nat.eqb_refl. reflexivity. }
  destruct (count_pos_In (of_attempt a (succeeded is_login)) (Finished s))
    as [[b [Login ok]] [HIn Hp]]; [lia|].
  unfold of_attempt, succeeded, is_login in Hp. simpl in Hp.
  apply andb_true_iff in Hp. destruct Hp as [Hb Hp].
  apply andb_true_iff in Hp. destruct Hp as [Hl Hok].
  apply Nat.eqb_eq in Hb. subst b ok.
  exists Login. split; [|exact HIn].
  destruct (OnProcessRequestComplete Login); try discriminate. reflexivity.
Qed.

(** X6: once the session request of an attempt has completed without
    transport success, no level is opened for that attempt, now or
    later. *)
Theorem failed_session_request_opens_no_level this evs later a Request :
  In (a, (Request, false)) (Finished (run (start this) evs)) ->
  OnProcessRequestComplete Request = Bound_OnStartSessionResponse ->
  forall LevelName bAbsolute,
    ~ In (a, (LevelName, bAbsolute))
         (Opened (run (start this) (evs ++ later)%list)).
Proof.
  intros Hfin Hbound LevelName bAbsolute Hopen.
  destruct (run_attempt_ok this (evs ++ later)%list a) as [H1 H2 H3].
  rewrite run_app in Hopen, H1, H2, H3.
  apply (run_Finished later) in Hfin.
  set (s := run (run (start this) evs) later) in *.
  assert (Hfail : 1 <= count (of_attempt a (failed is_session)) (Finished s)).
  { apply (count_In _ _ _ Hfin). unfold of_attempt, failed, is_session. simpl.
    rewrite Hbound, Nat.eqb_refl. reflexivity. }
  assert (Hopened : 1 <= count (of_attempt a (fun _ => true)) (Opened s)).
  { apply (count_In _ _ _ Hopen). unfold of_attempt. simpl.
    rewrite Nat.eqb_refl. reflexivity. }
  pose proof (completed_split is_session a (Finished s)).
  pose proof (completed_split is_login a (Finished s)).
  destruct (Nat.ltb a (Attempts s)); lia.
Qed.

Definition is_click (ev : Event) : bool :=
  match ev with
  | Click => true
  | _ => false
  end.

(** The login requests sent so far, in flight or completed. *)
Definition logins_sent (s : System) : nat :=
  count (fun e => is_login (snd e)) (InFlight s)
  + count (fun e => is_login (fst (snd e))) (Finished s).

Lemma step_logins_sent s ev :
  logins_sent (step s ev) = logins_sent s + (if is_click ev then 1 else 0).
Proof.
  unfold logins_sent.
  destruct ev as [u|pw| |n Response ok]; unfold step.
  - simpl. lia.
  - simpl. lia.
  - rewrite OnLoginClicked_eq. unfold perform. simpl.
    rewrite count_snoc. simpl. lia.
  - destruct (nth_error (InFlight s) n) as [[b Request]|] eqn:Hn; [|simpl; lia].
    pose proof (count_remove_nth (fun e => is_login (snd e)) _ _ _ Hn) as R.
    simpl in R. unfold Execute.
    destruct (OnProcessRequestComplete Request) eqn:Hd.
    + unfold perform. simpl. rewrite count_snoc. simpl. lia.
    + destruct (OnLoginResponse_cases (Widget s) Request Response ok)
        as [-> | [-> [idt ->]]]; unfold perform; simpl;
        rewrite ?count_snoc; simpl; lia.
    + destruct (OnStartSessionResponse_cases (Widget s) Request Response ok)
        as [-> | [-> [LevelName ->]]]; unfold perform; simpl;
        rewrite ?count_snoc; simpl; lia.
Qed.

Lemma clicks_counted_from evs :
  forall s,
  logins_sent (run s evs) = logins_sent s + count is_click evs
  /\ Attempts (run s evs) = Attempts s + count is_click evs.
Proof.
  induction evs as [|ev evs IH]; intros s; simpl.
  - unfold count. simpl. lia.
  - destruct (IH (step s ev)) as [IH1 IH2]. rewrite IH1, IH2, step_logins_sent.
    assert (Ha : Attempts (step s ev) = Attempts s + (if is_click ev then 1 else 0)).
    { destruct ev as [u|pw| |n Response ok]; unfold step.
      - simpl. lia.
      - simpl. lia.
      - rewrite OnLoginClicked_eq. unfold perform. simpl. lia.
      - destruct (nth_error (InFlight s) n) as [[b Request]|]; [|simpl; lia].
        unfold Execute. destruct (OnProcessRequestComplete Request).
        + unfold perform. simpl. lia.
        + destruct (OnLoginResponse_cases (Widget s) Request Response ok)
            as [-> | [-> [idt ->]]]; unfold perform; simpl; lia.
        + destruct (OnStartSessionResponse_cases (Widget s) Request Response ok)
            as [-> | [-> [LevelName ->]]]; unfold perform; simpl; lia. }
    rewrite Ha. unfold count. simpl. destruct (is_click ev); simpl; lia.
Qed.

(** X3: clicks are not held back: the login requests sent so far are as many
    as the clicks, also when a click comes while an earlier login is still
    in flight; every click starts an attempt of its own. *)
Theorem every_click_sends_a_login_request this evs :
  logins_sent (run (start this) evs) = count is_click evs
  /\ Attempts (run (start this) evs) = count is_click evs.
Proof.
  destruct (clicks_counted_from evs (start this)) as [H1 H2].
  assert (H0 : logins_sent (start this) = 0) by reflexivity.
  rewrite H0 in H1. simpl in H2. split; [exact H1 | exact H2].
Qed.

(** *** Where the requests go and what is opened *)

Definition same_endpoint (this w : UOfflineMainMenuWidget) : Prop :=
  ApiGatewayEndpoint w = ApiGatewayEndpoint this
  /\ LoginURI w = LoginURI this
  /\ StartSessionURI w = StartSessionURI this.

(** One of the two requests of the widget [this]. *)
Definition request_of (this : UOfflineMainMenuWidget) (r : IHttpRequest) : Prop :=
  (exists usr pwd, r = login_request this usr pwd)
  \/ (exists idt, r = session_request this idt).

(** A level named by an address and a port, not absolute. *)
Definition address_level (e : FName * bool) : Prop :=
  exists IpAddress Port, e = (Name (IpAddress ++ ":" ++ Port), false).

Record sends_ok (this : UOfflineMainMenuWidget) (s : System) : Prop := {
  widget_endpoint : same_endpoint this (Widget s);
  inflight_requests : forall a r, In (a, r) (InFlight s) -> request_of this r;
  finished_requests : forall a r ok, In (a, (r, ok)) (Finished s) -> request_of this r;
  opened_levels : forall a e, In (a, e) (Opened s) -> address_level e
}.

Lemma login_request_same_endpoint this w usr pwd :
  same_endpoint this w -> login_request w usr pwd = login_request this usr pwd.
Proof. intros [E1 [E2 _]]. unfold login_request. rewrite E1, E2. reflexivity. Qed.

Lemma session_request_same_endpoint this w idt :
  same_endpoint this w -> session_request w idt = session_request this idt.
Proof. intros [E1 [_ E3]]. unfold session_request. rewrite E1, E3. reflexivity. Qed.

Lemma OnStartSessionResponse_level this Request Response ok :
  OnStartSessionResponse this Request Response ok = []
  \/ exists IpAddress Port,
       OnStartSessionResponse this Request Response ok
       = [OpenLevel (Name (IpAddress ++ ":" ++ Port)) false].
Proof.
  unfold OnStartSessionResponse. destruct ok; [|left; reflexivity].
  destruct (Deserialize (GetContentAsString Response)) as [o|]; [|left; reflexivity].
  right. eexists. eexists. reflexivity.
Qed.

Lemma start_sends_ok this : sends_ok this (start this).
Proof.
  constructor; simpl.
  - repeat split.
  - intros a r [].
  - intros a r ok [].
  - intros a e [].
Qed.

Lemma step_sends_ok this s ev : sends_ok this s -> sends_ok this (step s ev).
Proof.
  intros [Hw Hi Hf Ho].
  destruct ev as [u|pw| |n Response ok]; unfold step.
  - constructor; simpl; auto.
  - constructor; simpl; auto.
  - rewrite OnLoginClicked_eq. unfold perform. simpl.
    constructor; simpl; auto.
    intros a r Hin. apply in_app_or in Hin. destruct Hin as [Hin|[Hin|[]]].
    + exact (Hi a r Hin).
    + injection Hin as _ <-. left. eexists. eexists.
      apply login_request_same_endpoint, Hw.
  - destruct (nth_error (InFlight s) n) as [[b Request]|] eqn:Hn;
      [|constructor; assumption].
    assert (HR : request_of this Request)
      by (apply (Hi b), (nth_error_In _ _ Hn)).
    assert (Hf' : forall a r ok0,
              In (a, (r, ok0)) (Finished s ++ [(b, (Request, ok))])%list ->
              request_of this r).
    { intros a r ok0 Hin. apply in_app_or in Hin. destruct Hin as [Hin|[Hin|[]]].
      - exact (Hf a r ok0 Hin).
      - injection Hin as _ <- _. exact HR. }
    assert (Hi' : forall a r, In (a, r) (remove_nth n (InFlight s)) ->
                              request_of this r).
    { intros a r Hin. apply (Hi a), (In_remove_nth _ _ _ Hin). }
    unfold Execute. destruct (OnProcessRequestComplete Request).
    + unfold perform. simpl. constructor; simpl; auto.
    + destruct (OnLoginResponse_cases (Widget s) Request Response ok)
        as [-> | [_ [idt ->]]]; unfold perform; simpl;
        constructor; simpl; auto.
      intros a r Hin. apply in_app_or in Hin. destruct Hin as [Hin|[Hin|[]]].
      * exact (Hi' a r Hin).
      * injection Hin as _ <-. right. exists idt.
        apply session_request_same_endpoint, Hw.
    + destruct (OnStartSessionResponse_level (Widget s) Request Response ok)
        as [-> | [IpAddress [Port ->]]]; unfold perform; simpl;
        constructor; simpl; auto.
      intros a e Hin. apply in_app_or in Hin. destruct Hin as [Hin|[Hin|[]]].
      * exact (Ho a e Hin).
      * injection Hin as _ <-. exists IpAddress, Port. reflexivity.
Qed.

Lemma run_sends_ok_from this evs :
  forall s, sends_ok this s -> sends_ok this (run s evs).
Proof.
  induction evs as [|ev evs IH]; intros s Hs; simpl; [exact Hs|].
  apply IH, step_sends_ok, Hs.
Qed.

Lemma run_sends_ok this evs : sends_ok this (run (start this) evs).
Proof. apply run_sends_ok_from, start_sends_ok. Qed.

(** X1: every request the widget ever sends is one of two: the POST to the
    login URI of the configured endpoint, with a JSON content type and the
    serialized credentials, bound to [OnLoginResponse]; or the GET to the
    session URI of the same endpoint, with a JSON content type and an
    [Authorization] header, bound to [OnStartSessionResponse]. *)
Theorem requests_go_to_the_endpoint this evs a Request :
  In (a, Request) (InFlight (run (start this) evs))
  \/ (exists ok, In (a, (Request, ok)) (Finished (run (start this) evs))) ->
  (exists usr pwd, Request = login_request this usr pwd)
  \/ (exists idt, Request = session_request this idt).
Proof.
  intros [Hin|[ok Hin]]; destruct (run_sends_ok this evs) as [_ Hi Hf _].
  - exact (Hi a Request Hin).
  - exact (Hf a Request ok Hin).
Qed.

(** X7: every level the widget opens is named by an address, a colon and a
    port, is not absolute, and belongs to an attempt whose session request
    has completed with transport success. *)
Theorem opened_level_follows_successful_session this evs a LevelName bAbsolute :
  In (a, (LevelName, bAbsolute)) (Opened (run (start this) evs)) ->
  bAbsolute = false
  /\ (exists IpAddress Port, LevelName = Name (IpAddress ++ ":" ++ Port))
  /\ exists Session,
       OnProcessRequestComplete Session = Bound_OnStartSessionResponse
       /\ In (a, (Session, true)) (Finished (run (start this) evs)).
Proof.
  intros Hopen.
  destruct (run_sends_ok this evs) as [_ _ _ Ho].
  destruct (Ho a _ Hopen) as [IpAddress [Port E]]. injection E as -> ->.
  split; [reflexivity|]. split; [exists IpAddress, Port; reflexivity|].
  destruct (run_attempt_ok this evs a) as [_ _ H3].
  set (s := run (start this) evs) in *.
  assert (Hopened : 1 <= count (of_attempt a (fun _ => true)) (Opened s)).
  { apply (count_In _ _ _ Hopen). unfold of_attempt. simpl.
    rewrite Nat.eqb_refl. reflexivity. }
  destruct (count_pos_In (of_attempt a (succeeded is_session)) (Finished s))
    as [[b [Session ok]] [HIn Hp]]; [lia|].
  unfold of_attempt, succeeded, is_session in Hp. simpl in Hp.
  apply andb_true_iff in Hp. destruct Hp as [Hb Hp].
  apply andb_true_iff in Hp. destruct Hp as [Hl Hok].
  apply Nat.eqb_eq in Hb. subst b ok.
  exists Session. split; [|exact HIn].
  destruct (OnProcessRequestComplete Session); try discriminate. reflexivity.
Qed.

(** X2: the login request of a click carries the credentials the Blueprint
    wrote last before it, goes to the endpoint the widget started with and
    opens the next attempt; what is already in flight stays as it is. *)
Theorem click_sends_current_credentials this evs usr pwd :
  InFlight (run (start this) (evs ++ [SetUser usr; SetPass pwd; Click])%list)
  = (InFlight (run (start this) evs)
     ++ [(count is_click evs, login_request this usr pwd)])%list.
Proof.
  rewrite run_app.
  destruct (clicks_counted_from evs (start this)) as [_ Ha]. simpl in Ha.
  destruct (run_sends_ok this evs) as [Hw _ _ _].
  set (s := run (start this) evs) in *.
  unfold run. simpl fold_left. rewrite Ha.
  match goal with
  | |- context [BindUObject ?r ?d] =>
      change (BindUObject r d)
        with (login_request
                {| ApiGatewayEndpoint := ApiGatewayEndpoint (Widget s);
                   LoginURI := LoginURI (Widget s);
                   StartSessionURI := StartSessionURI (Widget s);
                   user := usr; pass := pwd |} usr pwd)
  end.
  rewrite (login_request_same_endpoint this); [reflexivity|].
  destruct Hw as [E1 [E2 E3]]. repeat split; simpl; assumption.
Qed.

(** *** Responses whose fields read as the empty string *)

(** C2, as the code has it: a login response that succeeded at the
    transport level, whose body deserializes to a JSON object and whose
    [tokens.IdToken] reads as the empty string through [GetObjectField]
    and [GetStringField], does not make the login fail and reports no
    error: the handler sends the session request of that attempt, with
    the empty string as [Authorization], the completion is recorded as
    successful and no level is opened. *)
Theorem login_without_IdToken_sends_empty_token
  this evs n a Request Response (o : FJsonObject) :
  nth_error (InFlight (run (start this) evs)) n = Some (a, Request) ->
  OnProcessRequestComplete Request = Bound_OnLoginResponse ->
  Deserialize (GetContentAsString Response) = Some o ->
  GetStringField (GetObjectField o "tokens") "IdToken" = "" ->
  let s := run (start this) evs in
  let s' := step s (Complete n Response true) in
  OnLoginResponse (Widget s) Request Response true
  = [ProcessRequest (session_request this "")]
  /\ InFlight s'
     = (remove_nth n (InFlight s) ++ [(a, session_request this "")])%list
  /\ Finished s' = (Finished s ++ [(a, (Request, true))])%list
  /\ Opened s' = Opened s.
Proof.
  intros Hn Hbound Hparse Htoken s s'. subst s'.
  destruct (run_sends_ok this evs) as [Hw _ _ _]. fold s in Hn, Hw.
  assert (Hsend : OnLoginResponse (Widget s) Request Response true
                  = [ProcessRequest (session_request this "")]).
  { rewrite OnLoginResponse_eq, Hparse, Htoken.
    rewrite (session_request_same_endpoint this (Widget s) "" Hw). reflexivity. }
  split; [exact Hsend|].
  unfold step. rewrite Hn. unfold Execute. rewrite Hbound, Hsend.
  unfold perform. simpl. repeat split.
Qed.

(** X8: a session response that succeeded at the transport level, whose
    body deserializes to a JSON object and whose [PlayerSession.IpAddress]
    and [PlayerSession.Port] both read as the empty string through
    [GetObjectField] and [GetStringField], still makes the handler open a
    level for that attempt: the one named by a lone colon.  Nothing checks
    the fields. *)
Theorem session_without_PlayerSession_opens_colon
  this evs n a Request Response (o : FJsonObject) :
  nth_error (InFlight (run (start this) evs)) n = Some (a, Request) ->
  OnProcessRequestComplete Request = Bound_OnStartSessionResponse ->
  Deserialize (GetContentAsString Response) = Some o ->
  GetStringField (GetObjectField o "PlayerSession") "IpAddress" = "" ->
  GetStringField (GetObjectField o "PlayerSession") "Port" = "" ->
  let s := run (start this) evs in
  let s' := step s (Complete n Response true) in
  OnStartSessionResponse (Widget s) Request Response true
  = [OpenLevel (Name ":") false]
  /\ Opened s' = (Opened s ++ [(a, (Name ":", false))])%list
  /\ InFlight s' = remove_nth n (InFlight s)
  /\ Finished s' = (Finished s ++ [(a, (Request, true))])%list.
Proof.
  intros Hn Hbound Hparse Haddress Hport s s'. subst s'. fold s in Hn.
  assert (Hopen : OnStartSessionResponse (Widget s) Request Response true
                  = [OpenLevel (Name ":") false]).
  { unfold OnStartSessionResponse. rewrite Hparse, Haddress, Hport. reflexivity. }
  split; [exact Hopen|].
  unfold step. rewrite Hn. unfold Execute. rewrite Hbound, Hopen.
  unfold perform. simpl. repeat split.
Qed.

End Facts.

(** ** With the reference JSON library *)

Definition respond (body : string) : FHttpResponse :=
  {| GetContentAsString := body |}.

Definition token_body : string := json_text "{'tokens':{'IdToken':'abc'}}".

Definition session_body : string :=
  json_text "{'PlayerSession':{'IpAddress':'10.0.0.5','Port':'7777'}}".

Definition empty_body : string := "{}".

Example session_body_reads :
  Deserialize session_body
  = Some [("PlayerSession",
           FJsonValueObject [("IpAddress", FJsonValueString "10.0.0.5");
                             ("Port", FJsonValueString "7777")])].
Proof. reflexivity. Qed.

Example token_body_reads :
  Deserialize token_body
  = Some [("tokens", FJsonValueObject [("IdToken", FJsonValueString "abc")])].
Proof. reflexivity. Qed.

Example OnStartSessionResponse_session_body this Request :
  OnStartSessionResponse this Request (respond session_body) true
  = [OpenLevel (Name "10.0.0.5:7777") false].
Proof. reflexivity. Qed.

Example OnStartSessionResponse_transport_failure this Request :
  OnStartSessionResponse this Request (respond session_body) false = [].
Proof. reflexivity. Qed.

Lemma failed_login_opens_no_level_witness :
  ~ In (0, (Name "10.0.0.5:7777", false))
       (Opened (run (start Construct)
                  ([Click; Complete 0 (respond token_body) false]
                   ++ [Complete 0 (respond session_body) true])%list)).
Proof.
  apply (failed_login_opens_no_level Construct
           [Click; Complete 0 (respond token_body) false]
           [Complete 0 (respond session_body) true]
           0 (login_request Construct "" "")).
  - simpl. left. reflexivity.
  - reflexivity.
Defined.

(** C1 fails as stated: completing a login with a token body leaves a
    session request in flight that the handler sent on its own. *)
Lemma login_completion_sends_session_request :
  OnLoginResponse Construct (login_request Construct "" "")
    (respond token_body) true
  = [ProcessRequest (session_request Construct "abc")]
  /\ InFlight (run (start Construct) [Click; Complete 0 (respond token_body) true])
     = [(0, session_request Construct "abc")].
Proof. split; reflexivity. Qed.

(** C2 fails as stated: the body [{}] has no [tokens.IdToken], and the
    handler still sends the session request, with an empty token. *)
Lemma login_without_IdToken_sends_session_request :
  Deserialize empty_body = Some []
  /\ has_IdToken [] = false
  /\ OnLoginResponse Construct (login_request Construct "" "")
       (respond empty_body) true
     = [ProcessRequest (session_request Construct "")]
  /\ InFlight (run (start Construct) [Click; Complete 0 (respond empty_body) true])
     = [(0, session_request Construct "")].
Proof. repeat split; reflexivity. Qed.

Lemma no_IdToken_reads_empty (o : Fields) :
  has_IdToken o = false ->
  GetStringField_ref (GetObjectField_ref o "tokens") "IdToken" = "".
Proof.
  unfold has_IdToken, GetStringField_ref, GetObjectField_ref.
  destruct (Find o "tokens") as [[ | | | | |tokens]|]; try reflexivity.
  destruct (Find tokens "IdToken"); [discriminate | reflexivity].
Qed.

(** C3: after a login that succeeded with token [T], the session request
    carries [T]; when the backend answers it with the session body for
    10.0.0.5 and 7777, the handler reads host 10.0.0.5 and port 7777 and
    opens the level 10.0.0.5:7777, and nothing else. *)
Theorem session_response_opens_address
  this login_body (o : Fields) T :
  Deserialize login_body = Some o ->
  GetStringField (GetObjectField o "tokens") "IdToken" = T ->
  let s := run (start this)
             [Click; Complete 0 (respond login_body) true;
              Complete 0 (respond session_body) true] in
  Finished s
  = [(0, (login_request this (user this) (pass this), true));
     (0, (session_request this T, true))]
  /\ Opened s = [(0, (Name ("10.0.0.5" ++ ":" ++ "7777"), false))]
  /\ InFlight s = [].
Proof.
  intros Hparse Htoken. simpl in Hparse, Htoken.
  unfold run. simpl fold_left. rewrite Hparse, Htoken.
  repeat split; reflexivity.
Qed.

Lemma session_response_opens_address_witness :
  let s := run (start Construct)
             [Click; Complete 0 (respond token_body) true;
              Complete 0 (respond session_body) true] in
  Finished s
  = [(0, (login_request Construct "" "", true));
     (0, (session_request Construct "abc", true))]
  /\ Opened s = [(0, (Name "10.0.0.5:7777", false))]
  /\ InFlight s = [].
Proof.
  apply (session_response_opens_address Construct token_body
           [("tokens", FJsonValueObject [("IdToken", FJsonValueString "abc")])]
           "abc");
    reflexivity.
Defined.

(** ** More with the reference JSON library *)

Lemma session_request_follows_successful_login_witness :
  exists Login,
    OnProcessRequestComplete Login = Bound_OnLoginResponse
    /\ In (0, (Login, true))
          (Finished (run (start Construct)
                       [Click; Complete 0 (respond token_body) true])).
Proof.
  apply (session_request_follows_successful_login Construct
           [Click; Complete 0 (respond token_body) true]
           0 (session_request Construct "abc")).
  - left. simpl. left. reflexivity.
  - reflexivity.
Defined.

Lemma failed_session_request_opens_no_level_witness :
  ~ In (0, (Name "10.0.0.5:7777", false))
       (Opened (run (start Construct)
                  ([Click; Complete 0 (respond token_body) true;
                    Complete 0 (respond session_body) false]
                   ++ [Complete 0 (respond session_body) true])%list)).
Proof.
  apply (failed_session_request_opens_no_level Construct
           [Click; Complete 0 (respond token_body) true;
            Complete 0 (respond session_body) false]
           [Complete 0 (respond session_body) true]
           0 (session_request Construct "abc")).
  - simpl. right. left. reflexivity.
  - reflexivity.
Defined.

Lemma requests_go_to_the_endpoint_witness :
  (exists usr pwd, session_request Construct "abc" = login_request Construct usr pwd)
  \/ (exists idt, session_request Construct "abc" = session_request Construct idt).
Proof.
  apply (requests_go_to_the_endpoint Construct
           [SetUser "u"; Click; Click; Complete 1 (respond token_body) true]
           1 (session_request Construct "abc")).
  left. simpl. right. left. reflexivity.
Defined.

Lemma opened_level_follows_successful_session_witness :
  false = false
  /\ (exists IpAddress Port, Name "10.0.0.5:7777" = Name (IpAddress ++ ":" ++ Port))
  /\ exists Session,
       OnProcessRequestComplete Session = Bound_OnStartSessionResponse
       /\ In (0, (Session, true))
             (Finished (run (start Construct)
                          [Click; Complete 0 (respond token_body) true;
                           Complete 0 (respond session_body) true])).
Proof.
  apply (opened_level_follows_successful_session Construct
           [Click; Complete 0 (respond token_body) true;
            Complete 0 (respond session_body) true]
           0 (Name "10.0.0.5:7777") false).
  simpl. left. reflexivity.
Defined.

Definition error_body : string := json_text "{'message':'Forbidden'}".

Example error_body_reads :
  Deserialize error_body = Some [("message", FJsonValueString "Forbidden")].
Proof. reflexivity. Qed.

Lemma login_without_IdToken_sends_empty_token_witness :
  let s := run (start Construct) [Click] in
  let s' := step s (Complete 0 (respond empty_body) true) in
  OnLoginResponse (Widget s) (login_request Construct "" "")
    (respond empty_body) true
  = [ProcessRequest (session_request Construct "")]
  /\ InFlight s'
     = (remove_nth 0 (InFlight s) ++ [(0, session_request Construct "")])%list
  /\ Finished s'
     = (Finished s ++ [(0, (login_request Construct "" "", true))])%list
  /\ Opened s' = Opened s.
Proof.
  apply (login_without_IdToken_sends_empty_token (J := ReferenceJson)
           Construct [Click] 0 0
           (login_request Construct "" "") (respond empty_body) []);
    reflexivity.
Defined.

Lemma session_without_PlayerSession_opens_colon_witness :
  let s := run (start Construct) [Click; Complete 0 (respond token_body) true] in
  let s' := step s (Complete 0 (respond error_body) true) in
  OnStartSessionResponse (Widget s) (session_request Construct "abc")
    (respond error_body) true
  = [OpenLevel (Name ":") false]
  /\ Opened s' = (Opened s ++ [(0, (Name ":", false))])%list
  /\ InFlight s' = remove_nth 0 (InFlight s)
  /\ Finished s'
     = (Finished s ++ [(0, (session_request Construct "abc", true))])%list.
Proof.
  apply (session_without_PlayerSession_opens_colon (J := ReferenceJson)
           Construct
           [Click; Complete 0 (respond token_body) true] 0 0
           (session_request Construct "abc") (respond error_body)
           [("message", FJsonValueString "Forbidden")]);
    reflexivity.
Defined.

End Client.


(* ===================================================================== *)
(** * The game mode ([GameModeWithGameLift.cpp]) *)
(* ===================================================================== *)

Module Server.

(** [FGameLiftGenericOutcome], the result of a call of the server SDK. *)
Inductive FGameLiftGenericOutcome : Type :=
| Success
| Error (message : string).

Definition IsSuccess (o : FGameLiftGenericOutcome) : bool :=
  match o with
  | Success => true
  | Error _ => false
  end.

Section GameMode.

(** [Aws::GameLift::Server::Model::GameSession]: the game mode only
    receives it. *)
Context {GameSession : Type}.
(** [FParse::Param(Stream, Param)]: whether the switch is on the command
    line. *)
Variable FParse_Param : string -> string -> bool.
(** Whether the build defines [WITH_GAMELIFT]. *)
Variable WITH_GAMELIFT : bool.

(** [FProcessParameters], its three delegates running in [M]. *)
Record FProcessParametersOf (M : Type -> Type) : Type := {
  OnStartGameSession : option (GameSession -> M unit);
  OnTerminate : option (M unit);
  OnHealthCheck : option (M bool);
  port : Z;
  logParameters : list string
}.
Arguments OnStartGameSession {M} _.
Arguments OnTerminate {M} _.
Arguments OnHealthCheck {M} _.
Arguments port {M} _.
Arguments logParameters {M} _.

(** Code of the game mode: what it calls of the engine and of the SDK
    module, each call followed by the code that runs on its result. *)
Inductive Proc (A : Type) : Type :=
| Return (a : A)
| UE_LOG (Message : string) (k : Proc A)
| LoadModuleChecked (ModuleName : string) (k : Proc A)
| InitSDK (k : FGameLiftGenericOutcome -> Proc A)
| ProcessReady (params : FProcessParametersOf Proc)
    (k : FGameLiftGenericOutcome -> Proc A)
| ActivateGameSession (k : FGameLiftGenericOutcome -> Proc A)
| ProcessEnding (k : FGameLiftGenericOutcome -> Proc A).
Arguments Return {A} _.
Arguments UE_LOG {A} _ _.
Arguments LoadModuleChecked {A} _ _.
Arguments InitSDK {A} _.
Arguments ProcessReady {A} _ _.
Arguments ActivateGameSession {A} _.
Arguments ProcessEnding {A} _.

Definition FProcessParameters : Type := FProcessParametersOf Proc.

(** [new FProcessParameters()]: no delegate bound. *)
Definition NewFProcessParameters : FProcessParameters :=
  {| OnStartGameSession := None; OnTerminate := None; OnHealthCheck := None;
     port := 0; logParameters := [] |}.

Definition BindLambda_OnStartGameSession (params : FProcessParameters)
  (f : GameSession -> Proc unit) : FProcessParameters :=
  {| OnStartGameSession := Some f; OnTerminate := OnTerminate params;
     OnHealthCheck := OnHealthCheck params;
     port := port params; logParameters := logParameters params |}.

Definition BindLambda_OnTerminate (params : FProcessParameters)
  (f : Proc unit) : FProcessParameters :=
  {| OnStartGameSession := OnStartGameSession params; OnTerminate := Some f;
     OnHealthCheck := OnHealthCheck params;
     port := port params; logParameters := logParameters params |}.

Definition BindLambda_OnHealthCheck (params : FProcessParameters)
  (f : Proc bool) : FProcessParameters :=
  {| OnStartGameSession := OnStartGameSession params;
     OnTerminate := OnTerminate params; OnHealthCheck := Some f;
     port := port params; logParameters := logParameters params |}.

Definition set_port (params : FProcessParameters) (p : Z) : FProcessParameters :=
  {| OnStartGameSession := OnStartGameSession params;
     OnTerminate := OnTerminate params; OnHealthCheck := OnHealthCheck params;
     port := p; logParameters := logParameters params |}.

Definition set_logParameters (params : FProcessParameters) (l : list string)
  : FProcessParameters :=
  {| OnStartGameSession := OnStartGameSession params;
     OnTerminate := OnTerminate params; OnHealthCheck := OnHealthCheck params;
     port := port params; logParameters := l |}.

(** [TArray::Add] *)
Definition Add (l : list string) (x : string) : list string := (l ++ [x])%list.

(** ** The two functions of the game mode *)

(** Statement [c] for its effect, its result dropped, then [k]. *)
Notation "c ;; k" := (c (fun _ => k)) (at level 61, right associativity).

Definition SetupGameLift : Proc unit :=
  if WITH_GAMELIFT then
    LoadModuleChecked "GameLiftServerSDK" (
    InitSDK ;;
    let onGameSession := fun gameSession : GameSession =>
      ActivateGameSession ;; Return tt in
    let params := NewFProcessParameters in
    let params := BindLambda_OnStartGameSession params onGameSession in
    let params := BindLambda_OnTerminate params (ProcessEnding ;; Return tt) in
    let params := BindLambda_OnHealthCheck params (Return true) in
    let params := set_port params 7777 in
    let logfiles := [] in
    let logfiles := Add logfiles "aLogFile.txt" in
    let params := set_logParameters params logfiles in
    ProcessReady params ;;
    Return tt)
  else Return tt.

(** The constructor, from [#if defined(WITH_GAMELIFT)] on; the default pawn
    class set before it is the engine's business.  [CommandLine] is
    [FCommandLine::Get()]. *)
Definition AGameModeWithGameLift (CommandLine : string) : Proc unit :=
  if WITH_GAMELIFT then
    if negb (FParse_Param CommandLine "NoGameLift") then
      UE_LOG "Starting GameLift" SetupGameLift
    else
      UE_LOG "Skipping GameLift because of command line" (Return tt)
  else Return tt.

(** ** The process among the host and the GameLift agent *)

Inductive SdkCall : Type :=
| CallInitSDK
| CallProcessReady (port : Z) (logParameters : list string)
| CallActivateGameSession
| CallProcessEnding.

(** What can be seen of the process from outside, in order. *)
Inductive Observation : Type :=
| Logged (Message : string)
| Called (c : SdkCall) (o : FGameLiftGenericOutcome)
| HealthReported (healthy : bool).

(** The host and the agent, as far as the process can tell them apart:
    whether a module can be loaded, and what the [n]-th call of the SDK
    made by the process returns. *)
Record Environment : Type := {
  module_loads : string -> bool;
  outcome : nat -> FGameLiftGenericOutcome
}.

Record Process : Type := {
  Trace : list Observation;
  (** the process parameters the agent holds: those of a [ProcessReady]
      that succeeded *)
  Registered : option FProcessParameters;
  (** a failed [LoadModuleChecked] is fatal *)
  Halted : bool
}.

Definition initial : Process :=
  {| Trace := []; Registered := None; Halted := false |}.

Definition observe (s : Process) (x : Observation) : Process :=
  {| Trace := (Trace s ++ [x])%list; Registered := Registered s;
     Halted := Halted s |}.

Definition is_call (x : Observation) : bool :=
  match x with
  | Called _ _ => true
  | _ => false
  end.

Definition calls_made (s : Process) : nat :=
  List.length (filter is_call (Trace s)).

(** Running code of the game mode: the result, if it ran to its end, and
    the process after it. *)
Fixpoint exec {A : Type} (env : Environment) (c : Proc A) (s : Process)
  {struct c} : option A * Process :=
  match c with
  | Return a => (Some a, s)
  | UE_LOG Message k => exec env k (observe s (Logged Message))
  | LoadModuleChecked ModuleName k =>
      if module_loads env ModuleName then exec env k s
      else (None, {| Trace := Trace s; Registered := Registered s; Halted := true |})
  | InitSDK k =>
      let o := outcome env (calls_made s) in
      exec env (k o) (observe s (Called CallInitSDK o))
  | ProcessReady params k =>
      let o := outcome env (calls_made s) in
      exec env (k o)
        {| Trace :=
             (Trace s
              ++ [Called (CallProcessReady (port params) (logParameters params)) o])%list;
           Registered := if IsSuccess o then Some params else Registered s;
           Halted := Halted s |}
  | ActivateGameSession k =>
      let o := outcome env (calls_made s) in
      exec env (k o) (observe s (Called CallActivateGameSession o))
  | ProcessEnding k =>
      let o := outcome env (calls_made s) in
      exec env (k o) (observe s (Called CallProcessEnding o))
  end.

(** Process start: the game mode is constructed. *)
Definition boot (env : Environment) (CommandLine : string) : option unit * Process :=
  exec env (AGameModeWithGameLift CommandLine) initial.

Inductive Event : Type :=
(** the agent invokes a callback of the parameters it holds *)
| StartGameSession (gameSession : GameSession)
| HealthCheck
| Terminate
(** the host signals shutdown; the game mode has no code for it *)
| HostShutdown.

(** What the agent is answered when it asks for the health of the
    process. *)
Definition health_reply (env : Environment) (s : Process) : option bool :=
  match Registered s with
  | Some params =>
      match OnHealthCheck params with
      | Some f => fst (exec env f s)
      | None => None
      end
  | None => None
  end.

Definition handle (env : Environment) (s : Process) (ev : Event) : Process :=
  if Halted s then s else
  match ev, Registered s with
  | HostShutdown, _ => s
  | _, None => s
  | StartGameSession gameSession, Some params =>
      match OnStartGameSession params with
      | Some f => snd (exec env (f gameSession) s)
      | None => s
      end
  | HealthCheck, Some params =>
      match OnHealthCheck params with
      | Some f =>
          match exec env f s with
          | (Some healthy, s') => observe s' (HealthReported healthy)
          | (None, s') => s'
          end
      | None => s
      end
  | Terminate, Some params =>
      match OnTerminate params with
      | Some f => snd (exec env f s)
      | None => s
      end
  end.

Definition live (env : Environment) (CommandLine : string) (evs : list Event)
  : Process :=
  fold_left (handle env) evs (snd (boot env CommandLine)).

(** ** The states of the design *)

(** The game mode keeps no state variable.  The states below are those the
    design document names; [lifecycle] reads them off the process as the
    document describes them: terminating once the terminate callback has
    answered the agent, unregistered while the agent holds no parameters,
    a session active once an activation has succeeded, awaiting a session
    otherwise.  [Registering] lasts only while the constructor runs. *)
Inductive LifecycleState : Type :=
| Unregistered | Registering | AwaitingSession | SessionActive
| Terminating | Terminated.

Definition is_ProcessEnding (x : Observation) : bool :=
  match x with
  | Called CallProcessEnding _ => true
  | _ => false
  end.

Definition is_activated (x : Observation) : bool :=
  match x with
  | Called CallActivateGameSession Success => true
  | _ => false
  end.

Definition is_ProcessReady (x : Observation) : bool :=
  match x with
  | Called (CallProcessReady _ _) _ => true
  | _ => false
  end.

Definition lifecycle (s : Process) : LifecycleState :=
  if Halted s then Terminated
  else if existsb is_ProcessEnding (Trace s) then Terminating
  else match Registered s with
       | None => Unregistered
       | Some _ =>
           if existsb is_activated (Trace s) then SessionActive
           else AwaitingSession
       end.

(** No [ActivateGameSession] before a [ProcessReady] that succeeded. *)
Definition ready_before_activation (tr : list Observation) : Prop :=
  forall pre o post,
    tr = (pre ++ Called CallActivateGameSession o :: post)%list ->
    exists p l, In (Called (CallProcessReady p l) Success) pre.

(** ** Facts *)

(** The parameters [SetupGameLift] hands to [ProcessReady]. *)
Definition registered_params : FProcessParameters :=
  {| OnStartGameSession := Some (fun _ => ActivateGameSession (fun _ => Return tt));
     OnTerminate := Some (ProcessEnding (fun _ => Return tt));
     OnHealthCheck := Some (Return true);
     port := 7777;
     logParameters := ["aLogFile.txt"] |}.

Definition ready_call (o : FGameLiftGenericOutcome) : Observation :=
  Called (CallProcessReady 7777 ["aLogFile.txt"]) o.

(** The four ways the constructor can go. *)
Lemma boot_without_gamelift env CommandLine :
  WITH_GAMELIFT = false ->
  boot env CommandLine = (Some tt, initial).
Proof.
  intros H. unfold boot, AGameModeWithGameLift. rewrite H. reflexivity.
Qed.

Lemma boot_skipped env CommandLine :
  WITH_GAMELIFT = true ->
  FParse_Param CommandLine "NoGameLift" = true ->
  boot env CommandLine
  = (Some tt, observe initial (Logged "Skipping GameLift because of command line")).
Proof.
  intros H1 H2. unfold boot, AGameModeWithGameLift. rewrite H1, H2. reflexivity.
Qed.

Lemma boot_module_missing env CommandLine :
  WITH_GAMELIFT = true ->
  FParse_Param CommandLine "NoGameLift" = false ->
  module_loads env "GameLiftServerSDK" = false ->
  boot env CommandLine
  = (None, {| Trace := [Logged "Starting GameLift"]; Registered := None;
              Halted := true |}).
Proof.
  intros H1 H2 H3. unfold boot, AGameModeWithGameLift, SetupGameLift.
  rewrite H1, H2. simpl. rewrite H3. reflexivity.
Qed.

Lemma boot_setup env CommandLine :
  WITH_GAMELIFT = true ->
  FParse_Param CommandLine "NoGameLift" = false ->
  module_loads env "GameLiftServerSDK" = true ->
  boot env CommandLine
  = (Some tt,
     {| Trace := [Logged "Starting GameLift";
                  Called CallInitSDK (outcome env 0);
                  ready_call (outcome env 1)];
        Registered :=
          if IsSuccess (outcome env 1) then Some registered_params else None;
        Halted := false |}).
Proof.
  intros H1 H2 H3. unfold boot, AGameModeWithGameLift, SetupGameLift.
  rewrite H1, H2. simpl. rewrite H3. reflexivity.
Qed.

(** What the callbacks of [SetupGameLift] do when the agent invokes
    them. *)
Lemma handle_registered env s ev :
  Registered s = Some registered_params ->
  Halted s = false ->
  handle env s ev
  = match ev with
    | StartGameSession _ =>
        observe s (Called CallActivateGameSession (outcome env (calls_made s)))
    | HealthCheck => observe s (HealthReported true)
    | Terminate =>
        observe s (Called CallProcessEnding (outcome env (calls_made s)))
    | HostShutdown => s
    end.
Proof.
  intros Hreg Hhalt. unfold handle, health_reply. rewrite Hhalt, Hreg.
  destruct ev; reflexivity.
Qed.

Lemma handle_unregistered env s ev : Registered s = None -> handle env s ev = s.
Proof.
  intros Hreg. unfold handle. rewrite Hreg.
  destruct (Halted s), ev; reflexivity.
Qed.

Lemma handle_halted env s ev : Halted s = true -> handle env s ev = s.
Proof. intros Hhalt. unfold handle. rewrite Hhalt. reflexivity. Qed.

Lemma ready_before_activation_none tr :
  (forall o, ~ In (Called CallActivateGameSession o) tr) ->
  ready_before_activation tr.
Proof.
  intros Hno pre o post E. exfalso. apply (Hno o). rewrite E.
  apply in_or_app. right. left. reflexivity.
Qed.

Lemma ready_before_activation_snoc tr x :
  ready_before_activation tr ->
  (forall o, x <> Called CallActivateGameSession o)
  \/ (exists p l, In (Called (CallProcessReady p l) Success) tr) ->
  ready_before_activation (tr ++ [x])%list.
Proof.
  intros Htr Hx pre o post E.
  destruct post as [|y post _] using rev_ind.
  - apply app_inj_tail in E. destruct E as [-> ->].
    destruct Hx as [Hx|Hx]; [exfalso; apply (Hx o); reflexivity | exact Hx].
  - change (pre ++ Called CallActivateGameSession o :: post ++ [y])%list
      with (pre ++ (Called CallActivateGameSession o :: post) ++ [y])%list in E.
    rewrite app_assoc in E. apply app_inj_tail in E. destruct E as [E _].
    exact (Htr pre o post E).
Qed.

(** What holds of the process at every point of its life. *)
Record process_ok (s : Process) : Prop := {
  ok_registered : Registered s = None \/ Registered s = Some registered_params;
  ok_halted : Halted s = true -> Registered s = None;
  ok_ready : Registered s <> None -> In (ready_call Success) (Trace s);
  ok_order : ready_before_activation (Trace s)
}.

Lemma boot_ok env CommandLine : process_ok (snd (boot env CommandLine)).
Proof.
  destruct WITH_GAMELIFT eqn:H1;
    [|rewrite (boot_without_gamelift env CommandLine H1); constructor; simpl;
      try tauto; try congruence;
      apply ready_before_activation_none; simpl; tauto].
  destruct (FParse_Param CommandLine "NoGameLift") eqn:H2;
    [rewrite (boot_skipped env CommandLine H1 H2); constructor; simpl;
     try tauto; try congruence;
     apply ready_before_activation_none; simpl; intros o [H|[]]; discriminate|].
  destruct (module_loads env "GameLiftServerSDK") eqn:H3;
    [|rewrite (boot_module_missing env CommandLine H1 H2 H3); constructor; simpl;
      try tauto; try congruence;
      apply ready_before_activation_none; simpl; intros o [H|[]]; discriminate].
  rewrite (boot_setup env CommandLine H1 H2 H3).
  constructor; simpl.
  - destruct (IsSuccess (outcome env 1)); auto.
  - discriminate.
  - destruct (outcome env 1); simpl; [auto | congruence].
  - apply ready_before_activation_none. simpl. unfold ready_call.
    intros o [H|[H|[H|[]]]]; discriminate.
Qed.

Lemma handle_ok env s ev : process_ok s -> process_ok (handle env s ev).
Proof.
  intros [Hreg Hhalt Hready Horder].
  destruct (Halted s) eqn:Hh;
    [rewrite (handle_halted env s ev Hh); constructor; auto; congruence|].
  destruct Hreg as [Hreg|Hreg];
    [rewrite (handle_unregistered env s ev Hreg); constructor; auto; congruence|].
  assert (Hin : In (ready_call Success) (Trace s)) by (apply Hready; congruence).
  rewrite (handle_registered env s ev Hreg Hh).
  destruct ev; constructor; simpl; auto; try congruence;
    try (intros _; apply in_or_app; left; exact Hin);
    apply ready_before_activation_snoc; auto;
    try (left; intros o; discriminate);
    right; exists 7777%Z, ["aLogFile.txt"]; exact Hin.
Qed.

Lemma live_ok env CommandLine evs : process_ok (live env CommandLine evs).
Proof.
  unfold live. generalize (boot_ok env CommandLine).
  generalize (snd (boot env CommandLine)).
  induction evs as [|ev evs IH]; intros s Hs; simpl; [exact Hs|].
  apply IH, handle_ok, Hs.
Qed.

Lemma live_snoc env CommandLine evs ev :
  live env CommandLine (evs ++ [ev])%list
  = handle env (live env CommandLine evs) ev.
Proof. unfold live. rewrite fold_left_app. reflexivity. Qed.

Lemma live_unregistered env CommandLine evs :
  Registered (snd (boot env CommandLine)) = None ->
  live env CommandLine evs = snd (boot env CommandLine).
Proof.
  unfold live. generalize (snd (boot env CommandLine)).
  induction evs as [|ev evs IH]; intros s Hs; simpl; [reflexivity|].
  rewrite (handle_unregistered env s ev Hs). apply IH, Hs.
Qed.

Lemma filter_snoc {X : Type} (p : X -> bool) (l : list X) (x : X) :
  filter p (l ++ [x])%list = (filter p l ++ if p x then [x] else [])%list.
Proof. rewrite filter_app. reflexivity. Qed.

Lemma existsb_false_filter {X : Type} (p : X -> bool) (l : list X) :
  existsb p l = false -> filter p l = [].
Proof.
  induction l as [|x l IH]; simpl; [reflexivity|].
  destruct (p x); simpl; [discriminate | exact IH].
Qed.

(** The callbacks never register again. *)
Lemma handle_ready_calls env s ev :
  process_ok s ->
  filter is_ProcessReady (Trace (handle env s ev))
  = filter is_ProcessReady (Trace s).
Proof.
  intros [Hreg Hhalt _ _].
  destruct (Halted s) eqn:Hh; [rewrite (handle_halted env s ev Hh); reflexivity|].
  destruct Hreg as [Hreg|Hreg];
    [rewrite (handle_unregistered env s ev Hreg); reflexivity|].
  rewrite (handle_registered env s ev Hreg Hh).
  destruct ev; simpl; rewrite ?filter_snoc; simpl; rewrite ?app_nil_r; reflexivity.
Qed.

Lemma live_ready_calls env CommandLine evs :
  filter is_ProcessReady (Trace (live env CommandLine evs))
  = filter is_ProcessReady (Trace (snd (boot env CommandLine))).
Proof.
  induction evs as [|ev evs IH] using rev_ind; [reflexivity|].
  rewrite live_snoc, handle_ready_calls; [exact IH | apply live_ok].
Qed.

(** C4, as the code has it: [SetupGameLift] drops the outcomes of
    [InitSDK] and of [ProcessReady].  With orchestration enabled and the
    SDK module loaded, whatever the two calls return, the constructor
    makes the same calls, [InitSDK] and then [ProcessReady], runs to its
    end and leaves the process running; a failure shows in the outcome of
    the call and nowhere else. *)
Theorem registration_outcome_is_dropped env CommandLine :
  WITH_GAMELIFT = true ->
  FParse_Param CommandLine "NoGameLift" = false ->
  module_loads env "GameLiftServerSDK" = true ->
  fst (boot env CommandLine) = Some tt
  /\ Halted (snd (boot env CommandLine)) = false
  /\ Trace (snd (boot env CommandLine))
     = [Logged "Starting GameLift";
        Called CallInitSDK (outcome env 0);
        Called (CallProcessReady 7777 ["aLogFile.txt"]) (outcome env 1)].
Proof.
  intros H1 H2 H3. rewrite (boot_setup env CommandLine H1 H2 H3).
  repeat split.
Qed.

(** C6: in every run of the process, each call of [ActivateGameSession]
    comes after a call of [ProcessReady] that returned success. *)
Theorem activation_only_after_ready env CommandLine evs :
  ready_before_activation (Trace (live env CommandLine evs)).
Proof. apply live_ok. Qed.

(** C7: when the agent invokes the terminate callback while the process
    awaits a session, the process calls [ProcessEnding], once, and is
    terminating. *)
Theorem terminate_while_awaiting_session env CommandLine evs :
  lifecycle (live env CommandLine evs) = AwaitingSession ->
  let s := live env CommandLine evs in
  let s' := handle env s Terminate in
  lifecycle s' = Terminating
  /\ Trace s'
     = (Trace s ++ [Called CallProcessEnding (outcome env (calls_made s))])%list
  /\ List.length (filter is_ProcessEnding (Trace s')) = 1.
Proof.
  intros Hst s s'. subst s'.
  destruct (live_ok env CommandLine evs) as [Hreg Hhalt _ _]. fold s in Hreg, Hhalt, Hst.
  unfold lifecycle in Hst.
  destruct (Halted s) eqn:Hh; [discriminate|].
  destruct (existsb is_ProcessEnding (Trace s)) eqn:He; [discriminate|].
  destruct Hreg as [Hreg|Hreg]; [rewrite Hreg in Hst; discriminate|].
  rewrite (handle_registered env s Terminate Hreg Hh).
  split; [|split].
  - unfold lifecycle. simpl. rewrite Hh, existsb_app. simpl.
    rewrite orb_true_r. reflexivity.
  - reflexivity.
  - simpl. rewrite filter_snoc, (existsb_false_filter _ _ He). reflexivity.
Qed.

(** C8: with the switch [NoGameLift] on the command line the process
    makes no call of the SDK, neither [InitSDK] nor [ProcessReady] nor,
    whatever the host and the agent do later, [ProcessEnding]; the agent
    holds no callback of the process and gets no health reply. *)
Theorem NoGameLift_disables_orchestration env CommandLine evs :
  FParse_Param CommandLine "NoGameLift" = true ->
  let s := live env CommandLine evs in
  Registered s = None
  /\ (forall c o, ~ In (Called c o) (Trace s))
  /\ health_reply env s = None.
Proof.
  intros Hflag s. subst s.
  assert (Hboot :
    Registered (snd (boot env CommandLine)) = None
    /\ forall c o, ~ In (Called c o) (Trace (snd (boot env CommandLine)))).
  { destruct WITH_GAMELIFT eqn:H1.
    - rewrite (boot_skipped env CommandLine H1 Hflag). simpl.
      split; [reflexivity|]. intros c o [H|[]]. discriminate.
    - rewrite (boot_without_gamelift env CommandLine H1). simpl.
      split; [reflexivity|]. intros c o []. }
  destruct Hboot as [Hreg Hcalls].
  rewrite (live_unregistered env CommandLine evs Hreg).
  split; [exact Hreg|]. split; [exact Hcalls|].
  unfold health_reply. rewrite Hreg. reflexivity.
Qed.

(** C9: whenever the agent holds the parameters of the process, that is
    at any time after a registration that succeeded, with or without a
    session, the health check it invokes is answered [true]. *)
Theorem health_check_reports_healthy env CommandLine evs :
  Registered (live env CommandLine evs) <> None ->
  let s := live env CommandLine evs in
  health_reply env s = Some true
  /\ Trace (handle env s HealthCheck) = (Trace s ++ [HealthReported true])%list.
Proof.
  intros Hsome s.
  destruct (live_ok env CommandLine evs) as [Hreg Hhalt _ _]. fold s in Hreg, Hhalt, Hsome.
  destruct Hreg as [Hreg|Hreg]; [contradiction|].
  assert (Hh : Halted s = false).
  { destruct (Halted s); [|reflexivity]. rewrite Hhalt in Hreg by reflexivity.
    discriminate. }
  split.
  - unfold health_reply. rewrite Hreg. reflexivity.
  - rewrite (handle_registered env s HealthCheck Hreg Hh). reflexivity.
Qed.

(** C10: with orchestration enabled, the calls of [ProcessReady] in a run
    are the one call of [SetupGameLift], with port 7777 and the single log
    path aLogFile.txt, whatever the command line, the agent and the events
    are (and none at all when the SDK module cannot be loaded). *)
Theorem process_parameters_are_constant env CommandLine evs :
  WITH_GAMELIFT = true ->
  FParse_Param CommandLine "NoGameLift" = false ->
  filter is_ProcessReady (Trace (live env CommandLine evs))
  = if module_loads env "GameLiftServerSDK"
    then [Called (CallProcessReady 7777 ["aLogFile.txt"]) (outcome env 1)]
    else [].
Proof.
  intros H1 H2. rewrite live_ready_calls.
  destruct (module_loads env "GameLiftServerSDK") eqn:H3.
  - rewrite (boot_setup env CommandLine H1 H2 H3). reflexivity.
  - rewrite (boot_module_missing env CommandLine H1 H2 H3). reflexivity.
Qed.

(** ** More on the runs of the process *)

(** What the callbacks of [SetupGameLift] add to the trace, event by
    event, [n] being the number of SDK calls made before. *)
Fixpoint responses (env : Environment) (n : nat) (evs : list Event)
  : list Observation :=
  match evs with
  | [] => []
  | StartGameSession _ :: rest =>
      Called CallActivateGameSession (outcome env n) :: responses env (S n) rest
  | HealthCheck :: rest => HealthReported true :: responses env n rest
  | Terminate :: rest =>
      Called CallProcessEnding (outcome env n) :: responses env (S n) rest
  | HostShutdown :: rest => responses env n rest
  end.

Definition is_StartGameSession (ev : Event) : bool :=
  match ev with
  | StartGameSession _ => true
  | _ => false
  end.

Definition is_Terminate (ev : Event) : bool :=
  match ev with
  | Terminate => true
  | _ => false
  end.

Definition is_HealthCheck (ev : Event) : bool :=
  match ev with
  | HealthCheck => true
  | _ => false
  end.

Definition is_ActivateGameSession (x : Observation) : bool :=
  match x with
  | Called CallActivateGameSession _ => true
  | _ => false
  end.

Definition is_healthy_report (x : Observation) : bool :=
  match x with
  | HealthReported true => true
  | _ => false
  end.

Lemma calls_made_observe s x :
  calls_made (observe s x) = calls_made s + (if is_call x then 1 else 0).
Proof.
  unfold calls_made, observe. simpl. rewrite filter_snoc, length_app.
  destruct (is_call x); reflexivity.
Qed.

Lemma handled_registered env evs :
  forall s,
    Registered s = Some registered_params ->
    Halted s = false ->
    fold_left (handle env) evs s
    = {| Trace := (Trace s ++ responses env (calls_made s) evs)%list;
         Registered := Some registered_params;
         Halted := false |}.
Proof.
  induction evs as [|ev evs IH]; intros s Hreg Hh.
  - simpl. rewrite app_nil_r. destruct s; simpl in *; congruence.
  - simpl fold_left. rewrite (handle_registered env s ev Hreg Hh).
    destruct ev; simpl responses.
    + rewrite IH by assumption. rewrite calls_made_observe. simpl.
      rewrite <- app_assoc, Nat.add_1_r. reflexivity.
    + rewrite IH by assumption. rewrite calls_made_observe. simpl.
      rewrite <- app_assoc, Nat.add_0_r. reflexivity.
    + rewrite IH by assumption. rewrite calls_made_observe. simpl.
      rewrite <- app_assoc, Nat.add_1_r. reflexivity.
    + apply IH; assumption.
Qed.

(** X9: the whole trace of a process with orchestration enabled and the SDK
    module loaded: the log line, [InitSDK], [ProcessReady], and then, if
    [ProcessReady] succeeded, one entry per callback the agent invokes, in
    order: [ActivateGameSession] for a session start, the reply [true] for
    a health check, [ProcessEnding] for a terminate, each time again;
    nothing for a shutdown signalled by the host.  The outcomes the calls
    return change none of this, and the process never halts. *)
Theorem trace_of_the_process env CommandLine evs :
  WITH_GAMELIFT = true ->
  FParse_Param CommandLine "NoGameLift" = false ->
  module_loads env "GameLiftServerSDK" = true ->
  Trace (live env CommandLine evs)
  = ([Logged "Starting GameLift";
      Called CallInitSDK (outcome env 0);
      Called (CallProcessReady 7777 ["aLogFile.txt"]) (outcome env 1)]
     ++ if IsSuccess (outcome env 1) then responses env 2 evs else [])%list
  /\ Halted (live env CommandLine evs) = false.
Proof.
  intros H1 H2 H3.
  destruct (IsSuccess (outcome env 1)) eqn:Hs.
  - unfold live. rewrite (boot_setup env CommandLine H1 H2 H3), Hs. simpl snd.
    rewrite handled_registered by reflexivity. simpl. split; reflexivity.
  - rewrite live_unregistered;
      rewrite (boot_setup env CommandLine H1 H2 H3), Hs; simpl; split; reflexivity.
Qed.

Lemma responses_counts env evs :
  forall n,
    List.length (filter is_ActivateGameSession (responses env n evs))
    = List.length (filter is_StartGameSession evs)
    /\ List.length (filter is_ProcessEnding (responses env n evs))
       = List.length (filter is_Terminate evs)
    /\ List.length (filter is_healthy_report (responses env n evs))
       = List.length (filter is_HealthCheck evs).
Proof.
  induction evs as [|ev evs IH]; intros n; [repeat split|].
  destruct ev; simpl;
    [destruct (IH (S n)) as [-> [-> ->]] | destruct (IH n) as [-> [-> ->]]
    |destruct (IH (S n)) as [-> [-> ->]] | destruct (IH n) as [-> [-> ->]]];
    repeat split.
Qed.

(** X10: after a registration that succeeded the callbacks keep no count and
    no state: the process has called [ActivateGameSession] as many times as
    the agent started a session, [ProcessEnding] as many times as the agent
    asked it to terminate (a second terminate calls it a second time), and
    has answered [true] to every health check. *)
Theorem one_reaction_per_callback env CommandLine evs :
  WITH_GAMELIFT = true ->
  FParse_Param CommandLine "NoGameLift" = false ->
  module_loads env "GameLiftServerSDK" = true ->
  IsSuccess (outcome env 1) = true ->
  let tr := Trace (live env CommandLine evs) in
  List.length (filter is_ActivateGameSession tr)
  = List.length (filter is_StartGameSession evs)
  /\ List.length (filter is_ProcessEnding tr)
     = List.length (filter is_Terminate evs)
  /\ List.length (filter is_healthy_report tr)
     = List.length (filter is_HealthCheck evs).
Proof.
  intros H1 H2 H3 Hs tr. subst tr.
  unfold live. rewrite (boot_setup env CommandLine H1 H2 H3), Hs. simpl snd.
  rewrite handled_registered by reflexivity. simpl.
  apply responses_counts.
Qed.

(** X11: when the SDK module cannot be loaded the constructor does not run to
    its end: the process halts after the log line, before any call of the
    SDK, and nothing is called later either. *)
Theorem missing_module_halts_before_any_call env CommandLine evs :
  WITH_GAMELIFT = true ->
  FParse_Param CommandLine "NoGameLift" = false ->
  module_loads env "GameLiftServerSDK" = false ->
  fst (boot env CommandLine) = None
  /\ live env CommandLine evs
     = {| Trace := [Logged "Starting GameLift"]; Registered := None;
          Halted := true |}.
Proof.
  intros H1 H2 H3.
  rewrite live_unregistered;
    rewrite (boot_module_missing env CommandLine H1 H2 H3); split; reflexivity.
Qed.

(** X12: in a build without [WITH_GAMELIFT] the game mode does nothing of all
    this, whatever the command line says: no log line, no call, no
    callback. *)
Theorem build_without_gamelift_is_inert env CommandLine evs :
  WITH_GAMELIFT = false ->
  boot env CommandLine = (Some tt, initial)
  /\ live env CommandLine evs = initial.
Proof.
  intros H1. split; [exact (boot_without_gamelift env CommandLine H1)|].
  rewrite live_unregistered;
    rewrite (boot_without_gamelift env CommandLine H1); reflexivity.
Qed.

(** X13: the session start callback does not read the game session it is
    given: any two sessions lead to the same process. *)
Theorem game_session_is_not_read env CommandLine evs gameSession gameSession' :
  handle env (live env CommandLine evs) (StartGameSession gameSession)
  = handle env (live env CommandLine evs) (StartGameSession gameSession').
Proof.
  destruct (live_ok env CommandLine evs) as [Hreg _ _ _].
  set (s := live env CommandLine evs) in *.
  destruct (Halted s) eqn:Hh; [rewrite !(handle_halted env s _ Hh); reflexivity|].
  destruct Hreg as [Hreg|Hreg].
  - rewrite !(handle_unregistered env s _ Hreg). reflexivity.
  - rewrite !(handle_registered env s _ Hreg Hh). reflexivity.
Qed.

End GameMode.

(** ** Two environments and a command line reader for the examples *)

Definition agent_up : Environment :=
  {| module_loads := fun _ => true; outcome := fun _ => Success |}.

Definition agent_down : Environment :=
  {| module_loads := fun _ => true;
     outcome := fun _ => Error "agent unreachable" |}.

(** Whether the command line is the one switch, written with a dash. *)
Definition only_switch (Stream Param : string) : bool :=
  String.eqb Stream ("-" ++ Param).

(** C4 fails as stated: with the agent unreachable both [InitSDK] and
    [ProcessReady] fail, and the constructor still runs to its end with the
    process left running. *)
Lemma failed_registration_does_not_abort :
  boot (GameSession := string) only_switch true agent_down ""
  = (Some tt,
     {| Trace := [Logged "Starting GameLift";
                  Called CallInitSDK (Error "agent unreachable");
                  Called (CallProcessReady 7777 ["aLogFile.txt"])
                    (Error "agent unreachable")];
        Registered := None;
        Halted := false |}).
Proof. reflexivity. Qed.

Lemma registration_outcome_is_dropped_witness :
  fst (boot (GameSession := string) only_switch true agent_down "") = Some tt
  /\ Halted (snd (boot (GameSession := string) only_switch true agent_down "")) = false
  /\ Trace (snd (boot (GameSession := string) only_switch true agent_down ""))
     = [Logged "Starting GameLift";
        Called CallInitSDK (Error "agent unreachable");
        Called (CallProcessReady 7777 ["aLogFile.txt"]) (Error "agent unreachable")].
Proof.
  apply (registration_outcome_is_dropped (GameSession := string) only_switch true agent_down "");
    reflexivity.
Defined.

Lemma terminate_while_awaiting_session_witness :
  let s := live (GameSession := string) only_switch true agent_up "" [HealthCheck] in
  let s' := handle agent_up s Terminate in
  lifecycle s' = Terminating
  /\ Trace s' = (Trace s ++ [Called CallProcessEnding Success])%list
  /\ List.length (filter is_ProcessEnding (Trace s')) = 1.
Proof.
  apply (terminate_while_awaiting_session (GameSession := string) only_switch true agent_up ""
           [HealthCheck]).
  reflexivity.
Defined.

Lemma NoGameLift_disables_orchestration_witness :
  let s := live (GameSession := string) only_switch true agent_up "-NoGameLift"
             [StartGameSession "session"; HealthCheck; HostShutdown; Terminate] in
  Registered s = None
  /\ (forall c o, ~ In (Called c o) (Trace s))
  /\ health_reply agent_up s = None.
Proof.
  apply (NoGameLift_disables_orchestration (GameSession := string) only_switch true agent_up
           "-NoGameLift"
           [StartGameSession "session"; HealthCheck; HostShutdown; Terminate]).
  reflexivity.
Defined.

Lemma health_check_reports_healthy_witness :
  let s := live (GameSession := string) only_switch true agent_up "" [HealthCheck; HostShutdown] in
  health_reply agent_up s = Some true
  /\ Trace (handle agent_up s HealthCheck) = (Trace s ++ [HealthReported true])%list.
Proof.
  apply (health_check_reports_healthy (GameSession := string) only_switch true agent_up ""
           [HealthCheck; HostShutdown]).
  simpl. discriminate.
Defined.

Lemma process_parameters_are_constant_witness :
  filter is_ProcessReady
    (Trace (live (GameSession := string) only_switch true agent_up ""
              [StartGameSession "session"; Terminate]))
  = [Called (CallProcessReady 7777 ["aLogFile.txt"]) Success].
Proof.
  apply (process_parameters_are_constant (GameSession := string) only_switch true agent_up ""
           [StartGameSession "session"; Terminate]);
    reflexivity.
Defined.

(** An agent that accepts the registration and then fails every call. *)
Definition agent_failing_later : Environment :=
  {| module_loads := fun _ => true;
     outcome := fun n => if Nat.leb n 1 then Success else Error "rejected" |}.

Definition no_module : Environment :=
  {| module_loads := fun _ => false; outcome := fun _ => Success |}.

Lemma trace_of_the_process_witness :
  Trace (live (GameSession := string) only_switch true agent_failing_later ""
           [StartGameSession "session"; HealthCheck; Terminate; HostShutdown;
            Terminate])
  = [Logged "Starting GameLift";
     Called CallInitSDK Success;
     Called (CallProcessReady 7777 ["aLogFile.txt"]) Success;
     Called CallActivateGameSession (Error "rejected");
     HealthReported true;
     Called CallProcessEnding (Error "rejected");
     Called CallProcessEnding (Error "rejected")]
  /\ Halted (live (GameSession := string) only_switch true agent_failing_later ""
               [StartGameSession "session"; HealthCheck; Terminate; HostShutdown;
                Terminate])
     = false.
Proof.
  apply (trace_of_the_process (GameSession := string) only_switch true
           agent_failing_later ""
           [StartGameSession "session"; HealthCheck; Terminate; HostShutdown;
            Terminate]);
    reflexivity.
Defined.

Lemma one_reaction_per_callback_witness :
  let tr := Trace (live (GameSession := string) only_switch true agent_up ""
                     [Terminate; StartGameSession "session"; Terminate]) in
  List.length (filter is_ActivateGameSession tr) = 1
  /\ List.length (filter is_ProcessEnding tr) = 2
  /\ List.length (filter is_healthy_report tr) = 0.
Proof.
  apply (one_reaction_per_callback (GameSession := string) only_switch true
           agent_up "" [Terminate; StartGameSession "session"; Terminate]);
    reflexivity.
Defined.

Lemma missing_module_halts_before_any_call_witness :
  fst (boot (GameSession := string) only_switch true no_module "") = None
  /\ live (GameSession := string) only_switch true no_module ""
       [StartGameSession "session"; Terminate]
     = {| Trace := [Logged "Starting GameLift"]; Registered := None;
          Halted := true |}.
Proof.
  apply (missing_module_halts_before_any_call (GameSession := string)
           only_switch true no_module ""
           [StartGameSession "session"; Terminate]);
    reflexivity.
Defined.

Lemma build_without_gamelift_is_inert_witness :
  boot (GameSession := string) only_switch false agent_up "" = (Some tt, initial)
  /\ live (GameSession := string) only_switch false agent_up ""
       [StartGameSession "session"; HealthCheck; Terminate]
     = initial.
Proof.
  apply (build_without_gamelift_is_inert (GameSession := string) only_switch
           false agent_up "" [StartGameSession "session"; HealthCheck; Terminate]).
  reflexivity.
Defined.

End Server.
